(** * The REST request mediator of the model server

    A shallow embedding of [ie_serving/server/rest_service.py]: the three
    falcon resources [GetModelStatus], [GetModelMetadata] and [Predict].

    The handlers are written in a small state-and-exception monad.  The
    state holds what a handler can change: the falcon response object, the
    in-use guard of every engine, and the log of the calls made on the
    engines.  The helper modules the handlers import
    ([service_utils], [rest_msg_validation], [rest_msg_processing],
    [predict_utils], [get_model_metadata_utils], [constants]) are
    interfaces (type classes); the handlers are generic in them. *)

From Stdlib Require Import ZArith String Ascii List Bool Lia.
From stdpp Require Import base option list gmap strings pretty.

Import ListNotations.
Local Open Scope string_scope.
Local Open Scope list_scope.
Local Open Scope Z_scope.

Set Warnings "-register-all".

(** ** Python values *)

(** The exception classes a handler can meet.  [except ValueError] catches
    the first one only; [KeyError] is what a failed subscript [d[k]] raises;
    [RuntimeError] stands for any class that is not a [ValueError]. *)
Inductive exception : Type :=
| ValueError
| KeyError
| RuntimeError.

Definition is_ValueError (e : exception) : bool :=
  match e with ValueError => true | _ => false end.

(** A URI template field reaches a responder as a [str], kept here as its
    UTF-8 bytes; the default [requested_version=0] is an [int]. *)
Inductive PyArg : Type :=
| PyInt (z : Z)
| PyStr (s : string).

(** [json] is what [req.media] and [json.dumps] work with.  A float is kept
    as its literal: no arithmetic is done on tensors here. *)
Inductive json : Type :=
| JNull
| JBool (b : bool)
| JInt (z : Z)
| JFloat (literal : string)
| JStr (s : string)
| JList (items : list json)
| JDict (entries : list (string * json)).

(** [type(body) is dict] *)
Definition is_dict (v : json) : bool :=
  match v with JDict _ => true | _ => false end.

(** [k in d.keys()] and [d[k]] on an object in key order. *)
Fixpoint assoc {K V : Type} `{EqDecision K} (k : K) (d : list (K * V)) : option V :=
  match d with
  | [] => None
  | (k', v) :: rest => if decide (k = k') then Some v else assoc k rest
  end.

Definition dict_keys (v : json) : list string :=
  match v with JDict d => map fst d | _ => [] end.

(** *** [int(x)]

    A [str] is kept as its UTF-8 bytes.  [int] works on its code points
    (CPython's [PyLong_FromUnicodeObject]): a code point below 127 is taken
    as it is, one from 127 on is replaced by a space when it is Unicode white
    space and by its ASCII digit when it is a Unicode decimal digit, and
    makes the literal invalid otherwise; the ASCII text that results is read
    by [PyLong_FromString] in base 10.  (No bound is put on the number of
    digits; later interpreters have a setting for one.) *)

(** The code points of a UTF-8 text; nothing for bytes that are not UTF-8
    (an overlong form, a surrogate, a value above U+10FFFF).  Such bytes
    stand for no text that [int] accepts. *)
Definition continuation (c : ascii) : option N :=
  let b := N_of_ascii c in
  if ((128 <=? b) && (b <? 192))%N then Some (b - 128)%N else None.

Definition scalar (lowest c : N) : option N :=
  if ((lowest <=? c) && (c <=? 1114111)
      && negb ((55296 <=? c) && (c <=? 57343)))%N
  then Some c else None.

Fixpoint utf8_decode (l : list ascii) : option (list N) :=
  match l with
  | [] => Some []
  | c0 :: l1 =>
      let b0 := N_of_ascii c0 in
      if (b0 <? 128)%N then cons b0 <$> utf8_decode l1
      else if (b0 <? 192)%N then None
      else if (b0 <? 224)%N then
        match l1 with
        | c1 :: l2 =>
            b1 ← continuation c1;
            c ← scalar 128 ((b0 - 192) * 64 + b1)%N;
            cons c <$> utf8_decode l2
        | _ => None
        end
      else if (b0 <? 240)%N then
        match l1 with
        | c1 :: c2 :: l3 =>
            b1 ← continuation c1;
            b2 ← continuation c2;
            c ← scalar 2048 (((b0 - 224) * 64 + b1) * 64 + b2)%N;
            cons c <$> utf8_decode l3
        | _ => None
        end
      else if (b0 <? 248)%N then
        match l1 with
        | c1 :: c2 :: c3 :: l4 =>
            b1 ← continuation c1;
            b2 ← continuation c2;
            b3 ← continuation c3;
            c ← scalar 65536
                  ((((b0 - 240) * 64 + b1) * 64 + b2) * 64 + b3)%N;
            cons c <$> utf8_decode l4
        | _ => None
        end
      else None
  end.

(** [Py_UNICODE_ISSPACE], from code point 127 on: U+0085, U+00A0, U+1680,
    U+2000 to U+200A, U+2028, U+2029, U+202F, U+205F, U+3000. *)
Definition Py_UNICODE_ISSPACE (c : N) : bool :=
  ((c =? 133) || (c =? 160) || (c =? 5760)
   || ((8192 <=? c) && (c <=? 8202))
   || (c =? 8232) || (c =? 8233) || (c =? 8239) || (c =? 8287)
   || (c =? 12288))%N.

(** The digit zero of every run of ten decimal digits (category Nd) above
    ASCII, from U+0660 ARABIC-INDIC DIGIT ZERO to U+1FBF0 SEGMENTED DIGIT
    ZERO, as in the interpreter's Unicode database (14.0). *)
Definition decimal_zeros : list N :=
  [1632; 1776; 1984; 2406; 2534; 2662; 2790; 2918; 3046; 3174; 3302; 3430;
   3558; 3664; 3792; 3872; 4160; 4240; 6112; 6160; 6470; 6608; 6784; 6800;
   6992; 7088; 7232; 7248; 42528; 43216; 43264; 43472; 43504; 43600; 44016;
   65296; 66720; 68912; 69734; 69872; 69942; 70096; 70384; 70736; 70864;
   71248; 71360; 71472; 71904; 72016; 72784; 73040; 73120; 92768; 92864;
   93008; 120782; 120792; 120802; 120812; 120822; 123200; 123632; 125264;
   130032]%N.

(** [Py_UNICODE_TODECIMAL] *)
Definition Py_UNICODE_TODECIMAL (c : N) : option N :=
  (fun zero => (c - zero)%N)
    <$> List.find (fun zero => ((zero <=? c) && (c <? zero + 10))%N)
          decimal_zeros.

(** [_PyUnicode_TransformDecimalAndSpaceToASCII], on one code point. *)
Definition to_ascii (c : N) : option ascii :=
  if (c <? 127)%N then Some (ascii_of_N c)
  else if Py_UNICODE_ISSPACE c then Some " "%char
  else (fun d => ascii_of_N (48 + d)) <$> Py_UNICODE_TODECIMAL c.

(** [Py_ISSPACE]: space, and the control characters 9 to 13. *)
Definition is_space (c : ascii) : bool :=
  let n := nat_of_ascii c in
  (Nat.eqb n 32 || (Nat.leb 9 n && Nat.leb n 13))%bool.

(** The value of an ASCII digit; the other decimal digits have been replaced
    by theirs. *)
Definition digit_of (c : ascii) : option Z :=
  let n := Z.of_nat (nat_of_ascii c) in
  if (48 <=? n) && (n <=? 57) then Some (n - 48) else None.

(** Decimal digits, with single underscores allowed between two digits. *)
Fixpoint digits (acc : Z) (after_digit : bool) (l : list ascii) : option Z :=
  match l with
  | [] => if after_digit then Some acc else None
  | c :: rest =>
      match digit_of c with
      | Some d => digits (10 * acc + d) true rest
      | None =>
          if (Ascii.eqb c "_" && after_digit)%bool then digits acc false rest
          else None
      end
  end.

Fixpoint lstrip (l : list ascii) : list ascii :=
  match l with
  | c :: rest => if is_space c then lstrip rest else l
  | [] => []
  end.

Definition strip (l : list ascii) : list ascii :=
  rev (lstrip (rev (lstrip l))).

(** [PyLong_FromString], base 10: white space, an optional sign, the
    digits, white space. *)
Definition long_of_ascii (l : list ascii) : option Z :=
  match strip l with
  | "-"%char :: rest => Z.opp <$> digits 0 false rest
  | "+"%char :: rest => digits 0 false rest
  | l => digits 0 false l
  end.

Definition int_of_str (s : string) : option Z :=
  code_points ← utf8_decode (list_ascii_of_string s);
  text ← mapM to_ascii code_points;
  long_of_ascii text.

(** [int(x)]: the identity on an [int]; on a [str] the value of its decimal
    literal, [ValueError] when it is none. *)
Definition py_int (x : PyArg) : exception + Z :=
  match x with
  | PyInt z => inr z
  | PyStr s => match int_of_str s with Some z => inr z | None => inl ValueError end
  end.

(** [str(x)], as [str.format] applies it to a field. *)
Definition py_str (x : PyArg) : string :=
  match x with
  | PyInt z => pretty z
  | PyStr s => s
  end.

(** *** [str.format] with automatic field numbering

    Every [{}] takes the next argument; [{{] and [}}] are literal braces.
    (Python raises on a lone brace and where the arguments run out; the
    template is copied as it is there.  Numbered and named fields and format
    specifications are not covered.) *)
Fixpoint format (template : string) (args : list PyArg) : string :=
  match template with
  | String "{" (String "{" rest) => String "{" (format rest args)
  | String "}" (String "}" rest) => String "}" (format rest args)
  | String "{" (String "}" rest) =>
      match args with
      | a :: args' => py_str a +:+ format rest args'
      | [] => String "{" (String "}" (format rest []))
      end
  | String c rest => String c (format rest args)
  | EmptyString => EmptyString
  end.

(** ** The model store *)

Inductive ModelVersionState : Type :=
| DISCOVERED | LOADING | AVAILABLE | UNLOADING | END | FAILED.

Inductive ErrorCode : Type :=
| OK | NOT_FOUND | INVALID_INPUT | LOAD_FAILED | UNLOAD_PENDING | INTERNAL
| DEADLINE_EXCEEDED.

#[global] Instance ModelVersionState_eq_dec : EqDecision ModelVersionState.
Proof. solve_decision. Defined.

(** One entry of [model.versions_statuses]. *)
Record VersionStatus : Type := {
  version : Z;
  state : ModelVersionState;
  error_code : ErrorCode;
  error_message : string
}.

Record TensorInfo : Type := { dtype : Z; shape : list Z }.

(** A numpy array, by its entries as [tolist()] gives them. *)
Inductive ndarray : Type := Array (entries : json).

Definition tolist (a : ndarray) : json :=
  match a with Array entries => entries end.

Record ModelKeys : Type := {
  inputs : list (string * string);
  outputs : list (string * string)
}.

(** A loaded model version.  [infer] either returns the output blobs or
    raises. *)
Record Engine : Type := {
  input_tensors : list (string * TensorInfo);
  output_tensors : list (string * TensorInfo);
  model_keys : ModelKeys;
  input_key_names : list string;
  infer : list (string * ndarray) -> Z -> exception + list (string * ndarray)
}.

(** A model: [versions_statuses] is iterated in dict order, [engines] is
    only subscripted. *)
Record Model : Type := {
  versions_statuses : list (Z * VersionStatus);
  engines : gmap Z Engine
}.

Abbreviation Models := (gmap string Model).

(** ** Messages *)

Record ModelVersionStatus : Type := {
  mvs_version : Z;
  mvs_state : ModelVersionState;
  mvs_error_code : ErrorCode;
  mvs_error_message : string
}.

Record GetModelStatusResponse : Type := {
  model_version_status : list ModelVersionStatus
}.

Record SignatureDef : Type := {
  sig_inputs : list (string * TensorInfo);
  sig_outputs : list (string * TensorInfo)
}.

Record SignatureDefMap : Type := {
  signature_def : list (string * SignatureDef)
}.

Record GetModelMetadataResponse : Type := {
  model_spec_name : string;
  model_spec_version_value : Z;
  metadata : list (string * SignatureDefMap)
}.

(** What a handler assigns to [resp.body]: the serialisers are kept
    symbolic. *)
Inductive Body : Type :=
| NoBody
| json_dumps (v : json)
| StatusToJson (response : GetModelStatusResponse)
    (including_default_value_fields : bool)
| MetadataToJson (response : GetModelMetadataResponse).

(** falcon's status lines. *)
Definition HTTP_200 : string := "200 OK".
Definition HTTP_400 : string := "400 Bad Request".
Definition HTTP_NOT_FOUND : string := "404 Not Found".

Record Response : Type := { status : string; body : Body }.

(** [req.media] is the parsed body, or nothing when the body does not
    parse (falcon then raises [HTTPBadRequest], a [RuntimeError] here). *)
Record Request : Type := { media : option json }.

(** ** Effects *)

Abbreviation EngineKey := (string * Z)%type.

Inductive EngineAttr : Type :=
| A_input_tensors | A_output_tensors | A_model_keys | A_input_key_names.

(** The calls a handler makes: the availability check, the calls on an
    engine, the serialiser. *)
Inductive Event : Type :=
| Check (model_name : string) (requested_version : PyArg)
| Acquire (k : EngineKey)
| Release (k : EngineKey)
| Infer (k : EngineKey)
| Getattr (k : EngineKey) (a : EngineAttr)
| Serialize.

(** Modelled from the spec: [engine.in_use] (the engine class is not among
    the sources) is the Engine Handle's in-use counter; [acquire] increments
    it and [release] decrements it. *)
Record World : Type := {
  in_use : gmap EngineKey nat;
  resp : Response;
  calls : list Event
}.

Definition in_use_count (w : World) (k : EngineKey) : nat :=
  default 0%nat (in_use w !! k).

Definition M (A : Type) : Type := World -> (exception + A) * World.

Definition ret {A} (a : A) : M A := fun w => (inr a, w).

Definition raise {A} (e : exception) : M A := fun w => (inl e, w).

Definition bind {A B} (c : M A) (k : A -> M B) : M B :=
  fun w =>
    match c w with
    | (inr a, w') => k a w'
    | (inl e, w') => (inl e, w')
    end.

Declare Scope py_scope.
Delimit Scope py_scope with py.
Notation "x <- c ;; k" := (bind c (fun x => k))
  (at level 100, c at next level, right associativity) : py_scope.
Notation "c ;; k" := (bind c (fun _ => k))
  (at level 100, right associativity) : py_scope.
Local Open Scope py_scope.

(** A value that is there or raises. *)
Definition lift {A} (r : exception + A) : M A :=
  match r with inr a => ret a | inl e => raise e end.

(** [d[k]] *)
Definition subscript {A} (o : option A) : M A :=
  match o with Some a => ret a | None => raise KeyError end.

Definition emit (ev : Event) : M unit :=
  fun w => (inr tt, {| in_use := in_use w; resp := resp w;
                       calls := calls w ++ [ev] |}).

Definition set_status (s : string) : M unit :=
  fun w => (inr tt, {| in_use := in_use w;
                       resp := {| status := s; body := body (resp w) |};
                       calls := calls w |}).

Definition set_body (b : Body) : M unit :=
  fun w => (inr tt, {| in_use := in_use w;
                       resp := {| status := status (resp w); body := b |};
                       calls := calls w |}).

Definition set_in_use (k : EngineKey) (n : nat) : M unit :=
  fun w => (inr tt, {| in_use := <[k := n]> (in_use w); resp := resp w;
                       calls := calls w |}).

Definition get_in_use (k : EngineKey) : M nat :=
  fun w => (inr (in_use_count w k), w).

(** [json.dumps(v)] and [MessageToJson(response)] *)
Definition dumps (v : json) : M Body :=
  emit Serialize ;; ret (json_dumps v).

Definition MessageToJson_status (response : GetModelStatusResponse)
    (including_default_value_fields : bool) : M Body :=
  emit Serialize ;; ret (StatusToJson response including_default_value_fields).

Definition MessageToJson_metadata (response : GetModelMetadataResponse) : M Body :=
  emit Serialize ;; ret (MetadataToJson response).

(** [self.models[model_name].engines[version]] *)
Definition engine_of (models : Models) (model_name : string) (version : Z) : M Engine :=
  model <- subscript (models !! model_name) ;;
  subscript (engines model !! version).

(** [self.models[model_name].engines[version].in_use.acquire()] *)
Definition acquire (models : Models) (model_name : string) (version : Z) : M unit :=
  _ <- engine_of models model_name version ;;
  emit (Acquire (model_name, version)) ;;
  n <- get_in_use (model_name, version) ;;
  set_in_use (model_name, version) (S n).

(** [self.models[model_name].engines[version].in_use.release()] *)
Definition release (models : Models) (model_name : string) (version : Z) : M unit :=
  _ <- engine_of models model_name version ;;
  emit (Release (model_name, version)) ;;
  n <- get_in_use (model_name, version) ;;
  set_in_use (model_name, version) (pred n).

(** [self.models[model_name].engines[version].<attr>] *)
Definition getattr {A} (models : Models) (model_name : string) (version : Z)
    (a : EngineAttr) (field : Engine -> A) : M A :=
  engine <- engine_of models model_name version ;;
  emit (Getattr (model_name, version) a) ;;
  ret (field engine).

(** [self.models[model_name].engines[version].infer(inference_input,
    batch_size)] *)
Definition call_infer (models : Models) (model_name : string) (version : Z)
    (inference_input : list (string * ndarray)) (batch_size : Z)
    : M (list (string * ndarray)) :=
  engine <- engine_of models model_name version ;;
  emit (Infer (model_name, version)) ;;
  lift (infer engine inference_input batch_size).

(** [try: c except ValueError: h] *)
Definition try_except_ValueError {A} (c : M A) (h : M A) : M A :=
  fun w =>
    match c w with
    | (inl e, w') => if is_ValueError e then h w' else (inl e, w')
    | r => r
    end.

(** [req.media] *)
Definition get_media (req : Request) : M json :=
  match media req with Some v => ret v | None => raise RuntimeError end.

(** The values an [int64] field of a message takes. *)
Definition in_int64 (z : Z) : bool :=
  (- 2 ^ 63 <=? z) && (z <? 2 ^ 63).

(** [message.field = z] on an [int64] field: the assignment raises
    [ValueError] for a value out of range. *)
Definition int64 (z : Z) : M Z :=
  if in_int64 z then ret z else raise ValueError.

(** ** The imported helper modules, as interfaces *)

(** Modelled from the spec: the input-format discriminator
    (ROW | COLUMN | INVALID) of [rest_msg_validation] and [constants], which
    are not among the sources. *)
Inductive InputFormat : Type := INVALID_FORMAT | ROW_FORMAT | COLUMN_FORMAT.

#[global] Instance InputFormat_eq_dec : EqDecision InputFormat.
Proof. solve_decision. Defined.

(** Modelled from the spec: the two response representations, row and
    column; the values of the [OUTPUT_REPRESENTATION] table of [constants]. *)
Inductive OutputRepresentation : Type := ROW | COLUMN.

(** What [prepare_input_data] returns, the tuple
    [(occurred_problem, inference_input, batch_size, code)]: with
    [occurred_problem] the second component is the error message and [code]
    the status line; without, it is the input blobs and their batch size. *)
Inductive PreparedInput : Type :=
| Problem (inference_input : string) (code : string)
| Prepared (inference_input : list (string * ndarray)) (batch_size : Z).

(** [ie_serving.server.constants] *)
Class Constants : Type := {
  WRONG_MODEL_SPEC : string;
  OUTPUT_REPRESENTATION : InputFormat -> OutputRepresentation
}.

(** [ie_serving.server.service_utils] *)
Class ServiceUtils : Type := {
  check_availability_of_requested_model :
    Models -> PyArg -> string -> bool * Z;
  check_availability_of_requested_status :
    Models -> PyArg -> string -> bool;
  add_status_to_response :
    VersionStatus -> GetModelStatusResponse -> GetModelStatusResponse
}.

(** [ie_serving.server.rest_msg_validation] and
    [ie_serving.server.rest_msg_processing] *)
Class RestMsg : Type := {
  get_input_format : json -> list string -> InputFormat;
  preprocess_json_request :
    json -> InputFormat -> list string -> list (string * json);
  prepare_json_response :
    OutputRepresentation -> list (string * json) -> list (string * string) ->
    json
}.

(** [ie_serving.server.predict_utils] *)
Class PredictUtils : Type := {
  prepare_input_data :
    Models -> string -> Z -> list (string * json) -> bool -> PreparedInput
}.

(** [ie_serving.server.get_model_metadata_utils] *)
Class MetadataUtils : Type := {
  prepare_get_metadata_output :
    list (string * TensorInfo) -> list (string * TensorInfo) -> ModelKeys ->
    SignatureDef
}.

(** ** The handlers *)

Section Handlers.

Context `{Constants} `{ServiceUtils} `{RestMsg} `{PredictUtils} `{MetadataUtils}.

(** [GetModelStatus.on_get] *)
Definition GetModelStatus_on_get (self : Models) (req : Request)
    (model_name : string) (requested_version : PyArg) : M unit :=
  emit (Check model_name requested_version) ;;
  let valid_model_status :=
    check_availability_of_requested_status self requested_version model_name in
  if negb valid_model_status then
    set_status HTTP_NOT_FOUND ;;
    let err_out_json :=
      JDict [("error",
              JStr (format WRONG_MODEL_SPEC
                      [PyStr model_name; requested_version]))] in
    b <- dumps err_out_json ;;
    set_body b
  else
    requested_version <- lift (py_int requested_version) ;;
    let response := {| model_version_status := [] |} in
    response <-
      (if negb (requested_version =? 0) then
         model <- subscript (self !! model_name) ;;
         version_status <-
           subscript (assoc requested_version (versions_statuses model)) ;;
         ret (add_status_to_response version_status response)
       else
         model <- subscript (self !! model_name) ;;
         ret (fold_left (fun response version_status =>
                           add_status_to_response version_status response)
                (map snd (versions_statuses model)) response)) ;;
    set_status HTTP_200 ;;
    b <- MessageToJson_status response true ;;
    set_body b.

(** [GetModelMetadata.on_get] *)
Definition GetModelMetadata_on_get (self : Models) (req : Request)
    (model_name : string) (requested_version : PyArg) : M unit :=
  emit (Check model_name requested_version) ;;
  let '(valid_model_spec, version) :=
    check_availability_of_requested_model self requested_version model_name in
  if negb valid_model_spec then
    set_status HTTP_NOT_FOUND ;;
    let err_out_json :=
      JDict [("error",
              JStr (format WRONG_MODEL_SPEC
                      [PyStr model_name; requested_version]))] in
    b <- dumps err_out_json ;;
    set_body b
  else
    acquire self model_name version ;;
    inputs <- getattr self model_name version A_input_tensors input_tensors ;;
    outputs <- getattr self model_name version A_output_tensors output_tensors ;;
    keys <- getattr self model_name version A_model_keys model_keys ;;
    let signature := prepare_get_metadata_output inputs outputs keys in
    let model_data_map :=
      {| signature_def := [("serving_default", signature)] |} in
    value <- int64 version ;;
    let response :=
      {| metadata := [("signature_def", model_data_map)];
         model_spec_name := model_name;
         model_spec_version_value := value |} in
    release self model_name version ;;
    set_status HTTP_200 ;;
    b <- MessageToJson_metadata response ;;
    set_body b.

(** [Predict.on_post] *)
Definition Predict_on_post (self : Models) (req : Request)
    (model_name : string) (requested_version : PyArg) : M unit :=
  emit (Check model_name requested_version) ;;
  let '(valid_model_spec, version) :=
    check_availability_of_requested_model self requested_version model_name in
  if negb valid_model_spec then
    set_status HTTP_NOT_FOUND ;;
    let err_out_json :=
      JDict [("error",
              JStr (format WRONG_MODEL_SPEC
                      [PyStr model_name; requested_version]))] in
    b <- dumps err_out_json ;;
    set_body b
  else
    body <- get_media req ;;
    if negb (is_dict body) then
      set_status HTTP_400 ;;
      b <- dumps (JDict [("error", JStr "Invalid JSON in request body")]) ;;
      set_body b
    else
      names <- getattr self model_name version A_input_key_names input_key_names ;;
      let input_format := get_input_format body names in
      if bool_decide (input_format = INVALID_FORMAT) then
        set_status HTTP_400 ;;
        b <- dumps (JDict [("error", JStr "Invalid inputs in request body")]) ;;
        set_body b
      else
        names <- getattr self model_name version A_input_key_names input_key_names ;;
        let inputs := preprocess_json_request body input_format names in
        match prepare_input_data self model_name version inputs true with
        | Problem inference_input code =>
            set_status code ;;
            let err_out_json := JDict [("error", JStr inference_input)] in
            b <- dumps err_out_json ;;
            set_body b
        | Prepared inference_input batch_size =>
            acquire self model_name version ;;
            inference_output <-
              try_except_ValueError
                (out <- call_infer self model_name version inference_input
                          batch_size ;;
                 ret (Some out))
                (set_status HTTP_400 ;;
                 let err_out_json :=
                   JDict [("error", JStr "Malformed input data")] in
                 release self model_name version ;;
                 b <- dumps err_out_json ;;
                 set_body b ;;
                 ret None) ;;
            match inference_output with
            | None => ret tt
            | Some inference_output =>
                release self model_name version ;;
                let inference_output :=
                  map (fun '(key, value) => (key, tolist value))
                    inference_output in
                keys <- getattr self model_name version A_model_keys model_keys ;;
                let response :=
                  prepare_json_response (OUTPUT_REPRESENTATION input_format)
                    inference_output (outputs keys) in
                set_status HTTP_200 ;;
                b <- dumps response ;;
                set_body b
            end
        end.

(** *** Two answers the statements below name *)

(** The answer of every handler to a request it does not find. *)
Definition not_found (model_name : string) (requested_version : PyArg) : Response :=
  {| status := HTTP_NOT_FOUND;
     body := json_dumps
               (JDict [("error",
                        JStr (format WRONG_MODEL_SPEC
                                [PyStr model_name; requested_version]))]) |}.

(** The status list of a whole version map, in the order of the map. *)
Definition all_statuses (model : Model) : GetModelStatusResponse :=
  fold_left (fun response version_status =>
               add_status_to_response version_status response)
    (map snd (versions_statuses model)) {| model_version_status := [] |}.

End Handlers.

(** ** The ways out of a handler *)

(** [self.models[model_name].engines[version]], as a lookup. *)
Definition loaded_engine (models : Models) (model_name : string) (version : Z)
    : option Engine :=
  match models !! model_name with
  | Some model => engines model !! version
  | None => None
  end.

(** The in-use counts after [acquire] on [k], and after the [release] that
    follows it. *)
Definition acquired (w : World) (k : EngineKey) : gmap EngineKey nat :=
  <[k := S (in_use_count w k)]> (in_use w).

Definition released (w : World) (k : EngineKey) : gmap EngineKey nat :=
  <[k := in_use_count w k]> (acquired w k).

(** The calls on an engine's guard and runtime. *)
Definition is_guard_event (ev : Event) : bool :=
  match ev with
  | Acquire _ | Release _ | Infer _ => true
  | _ => false
  end.

Definition raised {A} (r : exception + A) : bool :=
  match r with inl _ => true | inr _ => false end.

Section Exits.

Context `{Constants} `{ServiceUtils} `{RestMsg} `{PredictUtils} `{MetadataUtils}.

Variables (self : Models) (req : Request) (model_name : string)
  (requested_version : PyArg) (w : World).

Let check : bool * Z :=
  check_availability_of_requested_model self requested_version model_name.
Let checked : Event := Check model_name requested_version.

(** One constructor for each way out of [Predict.on_post], in the order of
    the source: lines 121-130, 131, 132-135, 136-137, 138-142, 156-162,
    168-175, an exception that [except ValueError] lets through,
    176-197. *)
Inductive Predict_exit : (exception + unit) * World -> Prop :=
| exit_not_found version :
    check = (false, version) ->
    Predict_exit
      (inr tt,
       {| in_use := in_use w;
          resp := not_found model_name requested_version;
          calls := calls w ++ [checked; Serialize] |})
| exit_unparsable version :
    check = (true, version) ->
    media req = None ->
    Predict_exit
      (inl RuntimeError,
       {| in_use := in_use w; resp := resp w; calls := calls w ++ [checked] |})
| exit_not_dict version body :
    check = (true, version) ->
    media req = Some body ->
    is_dict body = false ->
    Predict_exit
      (inr tt,
       {| in_use := in_use w;
          resp := {| status := HTTP_400;
                     body := json_dumps
                       (JDict [("error",
                                JStr "Invalid JSON in request body")]) |};
          calls := calls w ++ [checked; Serialize] |})
| exit_engine_missing version d :
    check = (true, version) ->
    media req = Some (JDict d) ->
    loaded_engine self model_name version = None ->
    Predict_exit
      (inl KeyError,
       {| in_use := in_use w; resp := resp w; calls := calls w ++ [checked] |})
| exit_invalid_format version d engine :
    check = (true, version) ->
    media req = Some (JDict d) ->
    loaded_engine self model_name version = Some engine ->
    get_input_format (JDict d) (input_key_names engine) = INVALID_FORMAT ->
    Predict_exit
      (inr tt,
       {| in_use := in_use w;
          resp := {| status := HTTP_400;
                     body := json_dumps
                       (JDict [("error",
                                JStr "Invalid inputs in request body")]) |};
          calls := calls w ++
            [checked; Getattr (model_name, version) A_input_key_names;
             Serialize] |})
| exit_problem version d engine message code :
    check = (true, version) ->
    media req = Some (JDict d) ->
    loaded_engine self model_name version = Some engine ->
    get_input_format (JDict d) (input_key_names engine) <> INVALID_FORMAT ->
    prepare_input_data self model_name version
      (preprocess_json_request (JDict d)
         (get_input_format (JDict d) (input_key_names engine))
         (input_key_names engine)) true
      = Problem message code ->
    Predict_exit
      (inr tt,
       {| in_use := in_use w;
          resp := {| status := code;
                     body := json_dumps (JDict [("error", JStr message)]) |};
          calls := calls w ++
            [checked; Getattr (model_name, version) A_input_key_names;
             Getattr (model_name, version) A_input_key_names; Serialize] |})
| exit_ValueError version d engine inference_input batch_size :
    check = (true, version) ->
    media req = Some (JDict d) ->
    loaded_engine self model_name version = Some engine ->
    get_input_format (JDict d) (input_key_names engine) <> INVALID_FORMAT ->
    prepare_input_data self model_name version
      (preprocess_json_request (JDict d)
         (get_input_format (JDict d) (input_key_names engine))
         (input_key_names engine)) true
      = Prepared inference_input batch_size ->
    infer engine inference_input batch_size = inl ValueError ->
    let k := (model_name, version) in
    Predict_exit
      (inr tt,
       {| in_use := released w k;
          resp :=
            {| status := HTTP_400;
               body := json_dumps
                 (JDict [("error", JStr "Malformed input data")]) |};
          calls := calls w ++
            [checked; Getattr k A_input_key_names;
             Getattr k A_input_key_names; Acquire k; Infer k; Release k;
             Serialize] |})
| exit_raised version d engine inference_input batch_size e :
    check = (true, version) ->
    media req = Some (JDict d) ->
    loaded_engine self model_name version = Some engine ->
    get_input_format (JDict d) (input_key_names engine) <> INVALID_FORMAT ->
    prepare_input_data self model_name version
      (preprocess_json_request (JDict d)
         (get_input_format (JDict d) (input_key_names engine))
         (input_key_names engine)) true
      = Prepared inference_input batch_size ->
    infer engine inference_input batch_size = inl e ->
    is_ValueError e = false ->
    let k := (model_name, version) in
    Predict_exit
      (inl e,
       {| in_use := acquired w k;
          resp := resp w;
          calls := calls w ++
            [checked; Getattr k A_input_key_names;
             Getattr k A_input_key_names; Acquire k; Infer k] |})
| exit_ok version d engine inference_input batch_size inference_output :
    check = (true, version) ->
    media req = Some (JDict d) ->
    loaded_engine self model_name version = Some engine ->
    get_input_format (JDict d) (input_key_names engine) <> INVALID_FORMAT ->
    prepare_input_data self model_name version
      (preprocess_json_request (JDict d)
         (get_input_format (JDict d) (input_key_names engine))
         (input_key_names engine)) true
      = Prepared inference_input batch_size ->
    infer engine inference_input batch_size = inr inference_output ->
    let k := (model_name, version) in
    Predict_exit
      (inr tt,
       {| in_use := released w k;
          resp :=
            {| status := HTTP_200;
               body := json_dumps
                 (prepare_json_response
                    (OUTPUT_REPRESENTATION
                       (get_input_format (JDict d) (input_key_names engine)))
                    (map (fun '(key, value) => (key, tolist value))
                       inference_output)
                    (outputs (model_keys engine))) |};
          calls := calls w ++
            [checked; Getattr k A_input_key_names;
             Getattr k A_input_key_names; Acquire k; Infer k; Release k;
             Getattr k A_model_keys; Serialize] |}).

(** The ways out of [GetModelMetadata.on_get]: lines 76-84, the subscript of
    line 85, the assignment of line 103, lines 85-108. *)
Inductive GetModelMetadata_exit : (exception + unit) * World -> Prop :=
| metadata_not_found version :
    check = (false, version) ->
    GetModelMetadata_exit
      (inr tt,
       {| in_use := in_use w;
          resp := not_found model_name requested_version;
          calls := calls w ++ [checked; Serialize] |})
| metadata_engine_missing version :
    check = (true, version) ->
    loaded_engine self model_name version = None ->
    GetModelMetadata_exit
      (inl KeyError,
       {| in_use := in_use w; resp := resp w; calls := calls w ++ [checked] |})
| metadata_out_of_range version engine :
    check = (true, version) ->
    loaded_engine self model_name version = Some engine ->
    in_int64 version = false ->
    let k := (model_name, version) in
    GetModelMetadata_exit
      (inl ValueError,
       {| in_use := acquired w k;
          resp := resp w;
          calls := calls w ++
            [checked; Acquire k; Getattr k A_input_tensors;
             Getattr k A_output_tensors; Getattr k A_model_keys] |})
| metadata_ok version engine :
    check = (true, version) ->
    loaded_engine self model_name version = Some engine ->
    in_int64 version = true ->
    let k := (model_name, version) in
    GetModelMetadata_exit
      (inr tt,
       {| in_use := released w k;
          resp :=
            {| status := HTTP_200;
               body := MetadataToJson
                 {| model_spec_name := model_name;
                    model_spec_version_value := version;
                    metadata :=
                      [("signature_def",
                        {| signature_def :=
                             [("serving_default",
                               prepare_get_metadata_output
                                 (input_tensors engine)
                                 (output_tensors engine)
                                 (model_keys engine))] |})] |} |};
          calls := calls w ++
            [checked; Acquire k; Getattr k A_input_tensors;
             Getattr k A_output_tensors; Getattr k A_model_keys; Release k;
             Serialize] |}).

(** The ways out of [GetModelStatus.on_get]: lines 37-45, line 46, the
    subscripts of lines 50-51 and 54, lines 49-61. *)
Inductive GetModelStatus_exit : (exception + unit) * World -> Prop :=
| status_not_found :
    check_availability_of_requested_status self requested_version model_name
      = false ->
    GetModelStatus_exit
      (inr tt,
       {| in_use := in_use w;
          resp := not_found model_name requested_version;
          calls := calls w ++ [checked; Serialize] |})
| status_not_an_int e :
    check_availability_of_requested_status self requested_version model_name
      = true ->
    py_int requested_version = inl e ->
    GetModelStatus_exit
      (inl e,
       {| in_use := in_use w; resp := resp w; calls := calls w ++ [checked] |})
| status_model_missing v :
    check_availability_of_requested_status self requested_version model_name
      = true ->
    py_int requested_version = inr v ->
    self !! model_name = None ->
    GetModelStatus_exit
      (inl KeyError,
       {| in_use := in_use w; resp := resp w; calls := calls w ++ [checked] |})
| status_version_missing v model :
    check_availability_of_requested_status self requested_version model_name
      = true ->
    py_int requested_version = inr v ->
    v <> 0 ->
    self !! model_name = Some model ->
    assoc v (versions_statuses model) = None ->
    GetModelStatus_exit
      (inl KeyError,
       {| in_use := in_use w; resp := resp w; calls := calls w ++ [checked] |})
| status_one v model version_status :
    check_availability_of_requested_status self requested_version model_name
      = true ->
    py_int requested_version = inr v ->
    v <> 0 ->
    self !! model_name = Some model ->
    assoc v (versions_statuses model) = Some version_status ->
    GetModelStatus_exit
      (inr tt,
       {| in_use := in_use w;
          resp :=
            {| status := HTTP_200;
               body := StatusToJson
                 (add_status_to_response version_status
                    {| model_version_status := [] |}) true |};
          calls := calls w ++ [checked; Serialize] |})
| status_all model :
    check_availability_of_requested_status self requested_version model_name
      = true ->
    py_int requested_version = inr 0 ->
    self !! model_name = Some model ->
    GetModelStatus_exit
      (inr tt,
       {| in_use := in_use w;
          resp := {| status := HTTP_200;
                     body := StatusToJson (all_statuses model) true |};
          calls := calls w ++ [checked; Serialize] |}).

End Exits.

(** ** The application

    [create_rest_api] mounts the three resources, which share one model
    store, on six URI templates.  A template without the field
    [requested_version] leaves the responder's default, the [int] 0; a field
    of a template is a [str]. *)
Inductive Route : Type :=
| models_name (model_name : string)
| models_name_versions (model_name requested_version : string)
| models_name_metadata (model_name : string)
| models_name_versions_metadata (model_name requested_version : string)
| models_name_predict (model_name : string)
| models_name_versions_predict (model_name requested_version : string).

Section App.

Context `{Constants} `{ServiceUtils} `{RestMsg} `{PredictUtils} `{MetadataUtils}.

(** The responder a route is bound to, called with the fields of the
    route. *)
Definition respond (models : Models) (route : Route) (req : Request) : M unit :=
  match route with
  | models_name model_name =>
      GetModelStatus_on_get models req model_name (PyInt 0)
  | models_name_versions model_name requested_version =>
      GetModelStatus_on_get models req model_name (PyStr requested_version)
  | models_name_metadata model_name =>
      GetModelMetadata_on_get models req model_name (PyInt 0)
  | models_name_versions_metadata model_name requested_version =>
      GetModelMetadata_on_get models req model_name (PyStr requested_version)
  | models_name_predict model_name =>
      Predict_on_post models req model_name (PyInt 0)
  | models_name_versions_predict model_name requested_version =>
      Predict_on_post models req model_name (PyStr requested_version)
  end.

(** Requests served one after the other: each has a response object of its
    own; the in-use counts and the log carry over, whether the responder
    returned or raised. *)
Fixpoint serve (models : Models) (requests : list (Route * Request))
    (w : World) : list (exception + unit) * World :=
  match requests with
  | [] => ([], w)
  | (route, req) :: rest =>
      let '(r, w1) :=
        respond models route req
          {| in_use := in_use w;
             resp := {| status := HTTP_200; body := NoBody |};
             calls := calls w |} in
      let '(rs, w2) := serve models rest w1 in
      (r :: rs, w2)
  end.

End App.

(** ** The helpers the spec describes

    The helper modules are not among the sources.  Where a property rests
    on what a helper decides, the helper is modelled here from the spec. *)

Module Spec.

(** Modelled from the spec: a version is AVAILABLE when its Version Record
    is in state AVAILABLE, and then its engine handle is present
    (data-model invariant 2); [resolve] returns the engine, so it needs
    both. *)
Definition available (model : Model) (v : Z) : bool :=
  match assoc v (versions_statuses model), engines model !! v with
  | Some record, Some _ => bool_decide (state record = AVAILABLE)
  | _, _ => false
  end.

(** Modelled from the spec: "When LATEST: pick the numerically largest
    AVAILABLE version; if none, NOT_FOUND." *)
Definition latest (model : Model) : option Z :=
  foldr (fun v acc =>
           if available model v
           then Some (match acc with Some a => Z.max v a | None => v end)
           else acc)
    None (map fst (versions_statuses model)).

(** Modelled from the spec: the version a request selects in a model, the
    Model Manager's [resolve]; version 0, the responders' default, asks for
    LATEST; a version that is no integer matches nothing. *)
Definition matching_version (model : Model) (requested_version : PyArg) : option Z :=
  match py_int requested_version with
  | inr v =>
      if v =? 0 then latest model
      else if available model v then Some v else None
  | inl _ => None
  end.

(** Modelled from the spec: [check_availability_of_requested_model] of
    [service_utils]: NOT_FOUND when the model name is unknown or no
    AVAILABLE version matches the request. *)
Definition check_availability_of_requested_model (models : Models)
    (requested_version : PyArg) (model_name : string) : bool * Z :=
  match models !! model_name with
  | Some model =>
      match matching_version model requested_version with
      | Some v => (true, v)
      | None => (false, 0)
      end
  | None => (false, 0)
  end.

(** Modelled from the spec: a specific version is named by a nonzero
    integer; [has_record] says the model holds a Version Record for it. *)
Definition has_record (model : Model) (requested_version : PyArg) : bool :=
  match py_int requested_version with
  | inr v => bool_decide (is_Some (assoc v (versions_statuses model)))
  | inl _ => false
  end.

(** Modelled from the spec: version 0, the responders' default, is the
    request for no specific version. *)
Definition no_specific_version (requested_version : PyArg) : bool :=
  match py_int requested_version with
  | inr v => v =? 0
  | inl _ => false
  end.

(** Modelled from the spec: [check_availability_of_requested_status] of
    [service_utils]: "Fails with NOT_FOUND iff the model name is unknown or
    the specific version has no record." *)
Definition check_availability_of_requested_status (models : Models)
    (requested_version : PyArg) (model_name : string) : bool :=
  match models !! model_name with
  | Some model =>
      no_specific_version requested_version
      || has_record model requested_version
  | None => false
  end.

(** Modelled from the spec: one [model_version_status] entry, with the
    fields [version], [state], [status.error_code] and
    [status.error_message] of the record. *)
Definition status_entry (record : VersionStatus) : ModelVersionStatus :=
  {| mvs_version := version record;
     mvs_state := state record;
     mvs_error_code := error_code record;
     mvs_error_message := error_message record |}.

(** Modelled from the spec: [add_status_to_response] of [service_utils]
    extends the response's status list by the record's entry. *)
Definition add_status_to_response (record : VersionStatus)
    (response : GetModelStatusResponse) : GetModelStatusResponse :=
  {| model_version_status :=
       model_version_status response ++ [status_entry record] |}.

Definition service_utils : ServiceUtils :=
  Build_ServiceUtils check_availability_of_requested_model
    check_availability_of_requested_status add_status_to_response.

(** Modelled from the spec: the [OUTPUT_REPRESENTATION] table of
    [constants]: a row input is answered in row representation, a column
    input in column representation.  (The handler never looks up
    [INVALID_FORMAT].) *)
Definition OUTPUT_REPRESENTATION (input_format : InputFormat) : OutputRepresentation :=
  match input_format with
  | COLUMN_FORMAT => COLUMN
  | _ => ROW
  end.

Definition constants (template : string) : Constants :=
  Build_Constants template OUTPUT_REPRESENTATION.

(** Modelled from the spec: [prepare_json_response] of
    [rest_msg_processing]: [{"predictions": [...]}] for the row
    representation, [{"outputs": ...}] for the column one.  The spec leaves
    the payloads open: [rows] and [columns] build them. *)
Definition prepare_json_response
    (rows : list (string * json) -> list (string * string) -> list json)
    (columns : list (string * json) -> list (string * string) -> json)
    (output_representation : OutputRepresentation)
    (inference_output : list (string * json))
    (model_available_outputs : list (string * string)) : json :=
  match output_representation with
  | ROW =>
      JDict [("predictions",
              JList (rows inference_output model_available_outputs))]
  | COLUMN =>
      JDict [("outputs", columns inference_output model_available_outputs)]
  end.

(** A [rest_msg_processing] that answers as the spec says and is otherwise
    the given one. *)
Definition rest_msg (R : RestMsg)
    (rows : list (string * json) -> list (string * string) -> list json)
    (columns : list (string * json) -> list (string * string) -> json)
    : RestMsg :=
  Build_RestMsg (@get_input_format R) (@preprocess_json_request R)
    (prepare_json_response rows columns).

(** Modelled from the spec: [get_input_format] of [rest_msg_validation]:
    row format is [{"instances": [row, ...]}], column format is
    [{"inputs": ...}], anything else is invalid. *)
Definition get_input_format (body : json) (input_key_names : list string) : InputFormat :=
  match body with
  | JDict d =>
      match assoc "instances" d, assoc "inputs" d with
      | Some (JList _), None => ROW_FORMAT
      | None, Some _ => COLUMN_FORMAT
      | _, _ => INVALID_FORMAT
      end
  | _ => INVALID_FORMAT
  end.

End Spec.

(** ** A concrete server: one model, [resnet], version 1 loaded *)

Module Resnet.

Definition out_name : string := "resnet_v1_50/predictions/Reshape_1".

(** An engine whose runtime rejects a missing or scalar input blob with
    [ValueError] and fails with [RuntimeError] on a batch size it cannot
    take. *)
Definition engine_v1 : Engine :=
  {| input_tensors := [("input", {| dtype := 1; shape := [1; 3; 224; 224] |})];
     output_tensors := [(out_name, {| dtype := 1; shape := [1; 1000] |})];
     model_keys := {| inputs := [("input", "input")];
                      outputs := [(out_name, out_name)] |};
     input_key_names := ["input"];
     infer := fun blobs batch_size =>
       if batch_size <=? 0 then inl RuntimeError
       else match assoc "input" blobs with
            | Some (Array (JList (_ :: _))) =>
                inr [(out_name, Array (JList [JList [JFloat "0.5"]]))]
            | _ => inl ValueError
            end |}.

Definition record_v1 : VersionStatus :=
  {| version := 1; state := AVAILABLE; error_code := OK; error_message := "" |}.

Definition record_v2 : VersionStatus :=
  {| version := 2; state := END; error_code := OK; error_message := "" |}.

Definition resnet : Model :=
  {| versions_statuses := [(1, record_v1); (2, record_v2)];
     engines := {[ 1 := engine_v1 ]} |}.

Definition models : Models := {[ "resnet" := resnet ]}.

Definition constants : Constants :=
  Spec.constants "Servable not found for request: Specific({}, {})".

Definition rest_msg : RestMsg :=
  Spec.rest_msg
    (Build_RestMsg Spec.get_input_format
       (fun body input_format names =>
          match body with
          | JDict ((_, v) :: _) => [("input", v)]
          | _ => []
          end)
       (fun _ _ _ => JNull))
    (fun out _ => map snd out)
    (fun out _ => JDict out).

(** Every input becomes a blob; the batch size is the number of rows of
    the first one; no input at all is a problem. *)
Definition predict_utils : PredictUtils :=
  Build_PredictUtils
    (fun models model_name version inputs rest =>
       match inputs with
       | [] => Problem "Invalid inputs" HTTP_400
       | (_, JList rows) :: _ =>
           Prepared (map (fun '(k, v) => (k, Array v)) inputs)
             (Z.of_nat (length rows))
       | _ => Prepared (map (fun '(k, v) => (k, Array v)) inputs) 1
       end).

(** An input deserialiser that takes lists only. *)
Definition strict_predict_utils : PredictUtils :=
  Build_PredictUtils
    (fun models model_name version inputs rest =>
       match inputs with
       | (_, JList rows) :: _ =>
           Prepared (map (fun '(k, v) => (k, Array v)) inputs)
             (Z.of_nat (length rows))
       | _ => Problem "Invalid inputs" HTTP_400
       end).

Definition metadata_utils : MetadataUtils :=
  Build_MetadataUtils
    (fun inputs outputs keys =>
       {| sig_inputs := inputs; sig_outputs := outputs |}).

(** A check that lets every request through, as version 7: it shows what
    the handlers do when the store does not hold what the check promised. *)
Definition lenient_utils : ServiceUtils :=
  Build_ServiceUtils (fun _ _ _ => (true, 7)) (fun _ _ _ => true)
    Spec.add_status_to_response.

(** Two version texts: the control character U+001C before the digit 1,
    which [int] does not take for white space, and FULLWIDTH DIGIT ONE
    (U+FF11, the bytes EF BC 91), which [int] reads as 1. *)
Definition separator_then_one : string :=
  String (ascii_of_nat 28) (String "1" EmptyString).

Definition fullwidth_one : string :=
  String (ascii_of_nat 239)
    (String (ascii_of_nat 188) (String (ascii_of_nat 145) EmptyString)).

(** A store whose only version is beyond the range of an int64 field. *)
Definition models_beyond_int64 : Models :=
  {[ "resnet" :=
       {| versions_statuses :=
            [(2 ^ 63,
              {| version := 2 ^ 63; state := AVAILABLE; error_code := OK;
                 error_message := "loaded" |})];
          engines := {[ 2 ^ 63 := engine_v1 ]} |} ]}.

Definition w0 : World :=
  {| in_use := ∅;
     resp := {| status := HTTP_200; body := NoBody |};
     calls := [] |}.

Definition post (body : json) : Request := {| media := Some body |}.

Definition predict (req : Request) (model_name : string)
    (requested_version : PyArg) : (exception + unit) * World :=
  @Predict_on_post constants Spec.service_utils rest_msg predict_utils
    models req model_name requested_version w0.

Definition get_metadata (model_name : string) (requested_version : PyArg)
    : (exception + unit) * World :=
  @GetModelMetadata_on_get constants Spec.service_utils metadata_utils
    models {| media := None |} model_name requested_version w0.

Definition get_status (model_name : string) (requested_version : PyArg)
    : (exception + unit) * World :=
  @GetModelStatus_on_get constants Spec.service_utils
    models {| media := None |} model_name requested_version w0.

End Resnet.

(** ** Running the primitives *)

Section Primitives.

Context {A B : Type}.

Lemma bind_ok (c : M A) (k : A -> M B) (w w' : World) (a : A) :
  c w = (inr a, w') -> bind c k w = k a w'.
Proof. intros Hc. unfold bind. now rewrite Hc. Qed.

Lemma bind_raise (c : M A) (k : A -> M B) (w w' : World) (e : exception) :
  c w = (inl e, w') -> bind c k w = (inl e, w').
Proof. intros Hc. unfold bind. now rewrite Hc. Qed.

End Primitives.

Lemma engine_of_ok (models : Models) (model_name : string) (version : Z)
    (model : Model) (engine : Engine) (w : World) :
  models !! model_name = Some model ->
  engines model !! version = Some engine ->
  engine_of models model_name version w = (inr engine, w).
Proof.
  intros Hm He. unfold engine_of, bind, subscript. rewrite Hm. cbn.
  now rewrite He.
Qed.

Lemma engine_of_pure (models : Models) (model_name : string) (version : Z)
    (w : World) :
  snd (engine_of models model_name version w) = w.
Proof.
  unfold engine_of, bind, subscript.
  destruct (models !! model_name) as [model|]; cbn; [|reflexivity].
  now destruct (engines model !! version).
Qed.

(** Unfolds the monad and the primitives, leaving lookups, helper calls and
    logs as they are. *)
Ltac py_red :=
  cbv beta iota zeta delta
    [bind ret raise lift subscript emit set_status set_body set_in_use
     get_in_use dumps MessageToJson_status MessageToJson_metadata engine_of
     acquire release getattr call_infer try_except_ValueError get_media int64
     negb is_dict is_ValueError in_use resp calls status body].

(** Runs a handler along the path the rewriting tactic [rw] selects. *)
Ltac py_run rw := repeat (progress (py_red; rw)).

(** Closes the case of a run that changed no counter and made no call on an
    engine's guard or runtime. *)
Ltac untouched :=
  py_red; rewrite <- ?app_assoc; left; split; [reflexivity|];
  eexists; split; [reflexivity|]; cbn; intuition discriminate.

Section OnTheCode.

Context {C : Constants} {U : ServiceUtils} {R : RestMsg} {P : PredictUtils}
  {MU : MetadataUtils}.

Lemma Predict_not_found (self : Models) (req : Request) (model_name : string)
    (requested_version : PyArg) (w : World) :
  fst (check_availability_of_requested_model self requested_version model_name)
    = false ->
  Predict_on_post self req model_name requested_version w =
    (inr tt, {| in_use := in_use w;
                resp := not_found model_name requested_version;
                calls := calls w ++ [Check model_name requested_version; Serialize] |}).
Proof.
  intros Hc. unfold Predict_on_post.
  destruct (check_availability_of_requested_model _ _ _) as [valid v].
  cbn in Hc. subst valid. py_red. unfold not_found.
  rewrite <- app_assoc. reflexivity.
Qed.

Lemma GetModelMetadata_not_found (self : Models) (req : Request)
    (model_name : string) (requested_version : PyArg) (w : World) :
  fst (check_availability_of_requested_model self requested_version model_name)
    = false ->
  GetModelMetadata_on_get self req model_name requested_version w =
    (inr tt, {| in_use := in_use w;
                resp := not_found model_name requested_version;
                calls := calls w ++ [Check model_name requested_version; Serialize] |}).
Proof.
  intros Hc. unfold GetModelMetadata_on_get.
  destruct (check_availability_of_requested_model _ _ _) as [valid v].
  cbn in Hc. subst valid. py_red. unfold not_found.
  rewrite <- app_assoc. reflexivity.
Qed.

Lemma GetModelStatus_not_found (self : Models) (req : Request)
    (model_name : string) (requested_version : PyArg) (w : World) :
  check_availability_of_requested_status self requested_version model_name
    = false ->
  GetModelStatus_on_get self req model_name requested_version w =
    (inr tt, {| in_use := in_use w;
                resp := not_found model_name requested_version;
                calls := calls w ++ [Check model_name requested_version; Serialize] |}).
Proof.
  intros Hc. unfold GetModelStatus_on_get. rewrite Hc. py_red.
  unfold not_found. rewrite <- app_assoc. reflexivity.
Qed.

(** *** Predict, once the request is validated *)

Section Validated.

Variables (self : Models) (req : Request) (model_name : string)
  (requested_version : PyArg) (w : World).
Variables (version : Z) (d : list (string * json)) (model : Model)
  (engine : Engine) (input_format : InputFormat)
  (inference_input : list (string * ndarray)) (batch_size : Z).

Hypothesis Hcheck :
  check_availability_of_requested_model self requested_version model_name
    = (true, version).
Hypothesis Hmedia : media req = Some (JDict d).
Hypothesis Hmodel : self !! model_name = Some model.
Hypothesis Hengine : engines model !! version = Some engine.
Hypothesis Hformat :
  get_input_format (JDict d) (input_key_names engine) = input_format.
Hypothesis Hvalid : input_format <> INVALID_FORMAT.
Hypothesis Hprepared :
  prepare_input_data self model_name version
    (preprocess_json_request (JDict d) input_format (input_key_names engine))
    true
  = Prepared inference_input batch_size.

Let k : EngineKey := (model_name, version).
Let n : nat := in_use_count w k.
Let validation : list Event :=
  [Check model_name requested_version;
   Getattr k A_input_key_names; Getattr k A_input_key_names].

(** The three ways out of the handler after [acquire]. *)
Lemma Predict_after_acquire :
  Predict_on_post self req model_name requested_version w =
  match infer engine inference_input batch_size with
  | inr inference_output =>
      (inr tt,
       {| in_use := <[k := n]> (<[k := S n]> (in_use w));
          resp :=
            {| status := HTTP_200;
               body := json_dumps
                 (prepare_json_response (OUTPUT_REPRESENTATION input_format)
                    (map (fun '(key, value) => (key, tolist value))
                       inference_output)
                    (outputs (model_keys engine))) |};
          calls := calls w ++ validation ++
            [Acquire k; Infer k; Release k; Getattr k A_model_keys;
             Serialize] |})
  | inl e =>
      if is_ValueError e then
        (inr tt,
         {| in_use := <[k := n]> (<[k := S n]> (in_use w));
            resp :=
              {| status := HTTP_400;
                 body := json_dumps
                   (JDict [("error", JStr "Malformed input data")]) |};
            calls := calls w ++ validation ++
              [Acquire k; Infer k; Release k; Serialize] |})
      else
        (inl e,
         {| in_use := <[k := S n]> (in_use w);
            resp := resp w;
            calls := calls w ++ validation ++ [Acquire k; Infer k] |})
  end.
Proof.
  unfold Predict_on_post. rewrite Hcheck.
  py_run ltac:(rewrite ?Hmedia, ?Hmodel, ?Hengine, ?Hformat).
  rewrite bool_decide_eq_false_2 by exact Hvalid.
  py_run ltac:(rewrite ?Hmodel, ?Hengine, ?Hprepared).
  subst validation n k. unfold in_use_count.
  destruct (infer engine inference_input batch_size) as [e|out].
  - destruct e; py_run ltac:(rewrite ?Hmodel, ?Hengine); cbn;
      rewrite <- ?app_assoc, ?lookup_insert_eq; reflexivity.
  - py_run ltac:(rewrite ?Hmodel, ?Hengine); cbn.
    rewrite <- ?app_assoc, ?lookup_insert_eq. reflexivity.
Qed.

(** C1. The claim asks for [release] on every way out of the handler after
    [acquire].  When [infer] raises an exception that is not a [ValueError],
    the handler is left by that exception with no [release]: the engine's
    in-use count stays one above its value before the call. *)
Theorem Predict_no_release_on_other_exception (e : exception) :
  infer engine inference_input batch_size = inl e ->
  is_ValueError e = false ->
  let '(r, w') := Predict_on_post self req model_name requested_version w in
  r = inl e /\
  in_use_count w' (model_name, version)
    = S (in_use_count w (model_name, version)) /\
  calls w' = calls w ++
    [Check model_name requested_version;
     Getattr (model_name, version) A_input_key_names;
     Getattr (model_name, version) A_input_key_names;
     Acquire (model_name, version); Infer (model_name, version)].
Proof.
  intros Hinfer He. rewrite Predict_after_acquire, Hinfer, He.
  repeat split. unfold in_use_count at 1. cbn.
  rewrite lookup_insert_eq. reflexivity.
Qed.

(** C6, amended.  When [infer] raises [ValueError], the handler returns,
    the answer is 400 with body [{"error": "Malformed input data"}], and
    the engine is released before the body is serialised: every in-use
    count is back at its value before the call. *)
Theorem Predict_ValueError_is_400_and_released :
  infer engine inference_input batch_size = inl ValueError ->
  let '(r, w') := Predict_on_post self req model_name requested_version w in
  r = inr tt /\
  resp w' =
    {| status := HTTP_400;
       body := json_dumps (JDict [("error", JStr "Malformed input data")]) |} /\
  (forall k', in_use_count w' k' = in_use_count w k') /\
  calls w' = calls w ++
    [Check model_name requested_version;
     Getattr (model_name, version) A_input_key_names;
     Getattr (model_name, version) A_input_key_names;
     Acquire (model_name, version); Infer (model_name, version);
     Release (model_name, version); Serialize].
Proof.
  intros Hinfer. rewrite Predict_after_acquire, Hinfer. cbn.
  repeat split. intros k'. unfold in_use_count at 1. cbn.
  destruct (decide ((model_name, version) = k')) as [<-|Hne].
  - rewrite lookup_insert_eq. reflexivity.
  - rewrite !lookup_insert_ne by exact Hne. reflexivity.
Qed.

(** Whenever the handler returns after [acquire], the engine has been
    released. *)
Lemma Predict_released_on_return (w' : World) :
  Predict_on_post self req model_name requested_version w = (inr tt, w') ->
  forall k', in_use_count w' k' = in_use_count w k'.
Proof.
  rewrite Predict_after_acquire.
  assert (Hcount : forall k',
    default 0%nat ((<[k := n]> (<[k := S n]> (in_use w))) !! k')
      = in_use_count w k').
  { intros k'. destruct (decide (k = k')) as [<-|Hne].
    - rewrite lookup_insert_eq. reflexivity.
    - rewrite !lookup_insert_ne by exact Hne. reflexivity. }
  destruct (infer engine inference_input batch_size) as [e|out].
  - destruct e; cbn; intros [= <-]; exact Hcount.
  - intros [= <-]. exact Hcount.
Qed.

End Validated.

(** C5. A successful GetModelMetadata request, one whose check resolves a
    version (a value of the int64 field the answer carries it in) whose
    engine is loaded, calls in this order: the check that resolves the
    version, acquire, the reads of input_tensors, output_tensors and
    model_keys, release, the serialiser.  It answers 200 with the signature
    map under the sole key serving_default, model_spec.name the requested
    name and model_spec.version.value the resolved version, and leaves the
    engine's in-use count as it was.  A request the check rejects is
    answered 404. *)
Theorem GetModelMetadata_order_and_response (self : Models) (req : Request)
    (model_name : string) (requested_version : PyArg) (w : World) :
  (forall version model engine,
      check_availability_of_requested_model self requested_version model_name
        = (true, version) ->
      self !! model_name = Some model ->
      engines model !! version = Some engine ->
      - 2 ^ 63 <= version < 2 ^ 63 ->
      let k := (model_name, version) in
      let '(r, w') :=
        GetModelMetadata_on_get self req model_name requested_version w in
      r = inr tt /\
      calls w' = calls w ++
        [Check model_name requested_version;
         Acquire k; Getattr k A_input_tensors; Getattr k A_output_tensors;
         Getattr k A_model_keys; Release k; Serialize] /\
      resp w' =
        {| status := HTTP_200;
           body := MetadataToJson
             {| model_spec_name := model_name;
                model_spec_version_value := version;
                metadata :=
                  [("signature_def",
                    {| signature_def :=
                         [("serving_default",
                           prepare_get_metadata_output (input_tensors engine)
                             (output_tensors engine) (model_keys engine))] |})]
             |} |} /\
      in_use_count w' k = in_use_count w k) /\
  (fst (check_availability_of_requested_model self requested_version model_name)
     = false ->
   let '(r, w') :=
     GetModelMetadata_on_get self req model_name requested_version w in
   r = inr tt /\ status (resp w') = HTTP_NOT_FOUND).
Proof.
  split.
  - intros version model engine Hc Hm He Hrange k.
    assert (Hin : in_int64 version = true).
    { unfold in_int64. apply andb_true_intro.
      split; [apply Z.leb_le | apply Z.ltb_lt]; lia. }
    unfold GetModelMetadata_on_get. rewrite Hc.
    py_run ltac:(rewrite ?Hm, ?He, ?Hin).
    repeat split.
    + cbn. rewrite <- !app_assoc. reflexivity.
    + unfold in_use_count. cbn. rewrite !lookup_insert_eq. reflexivity.
  - intros Hc. rewrite GetModelMetadata_not_found by exact Hc. now split.
Qed.

Section Rejected.

Variables (self : Models) (req : Request) (model_name : string)
  (requested_version : PyArg) (w : World) (version : Z).

Hypothesis Hcheck :
  check_availability_of_requested_model self requested_version model_name
    = (true, version).

Lemma Predict_unparsable :
  media req = None ->
  Predict_on_post self req model_name requested_version w =
    (inl RuntimeError,
     {| in_use := in_use w; resp := resp w;
        calls := calls w ++ [Check model_name requested_version] |}).
Proof.
  intros Hmedia. unfold Predict_on_post. rewrite Hcheck.
  py_run ltac:(rewrite ?Hmedia). reflexivity.
Qed.

Lemma Predict_body_not_dict (body : json) :
  media req = Some body ->
  is_dict body = false ->
  Predict_on_post self req model_name requested_version w =
    (inr tt,
     {| in_use := in_use w;
        resp := {| status := HTTP_400;
                   body := json_dumps
                     (JDict [("error",
                              JStr "Invalid JSON in request body")]) |};
        calls := calls w ++ [Check model_name requested_version; Serialize] |}).
Proof.
  intros Hmedia Hdict. unfold Predict_on_post. rewrite Hcheck.
  py_run ltac:(rewrite ?Hmedia).
  destruct body; try discriminate Hdict; py_red; rewrite <- app_assoc;
    reflexivity.
Qed.

Lemma Predict_engine_missing (d : list (string * json)) :
  media req = Some (JDict d) ->
  loaded_engine self model_name version = None ->
  Predict_on_post self req model_name requested_version w =
    (inl KeyError,
     {| in_use := in_use w; resp := resp w;
        calls := calls w ++ [Check model_name requested_version] |}).
Proof.
  intros Hmedia Hengine. unfold Predict_on_post. rewrite Hcheck.
  unfold loaded_engine in Hengine.
  destruct (self !! model_name) as [model|] eqn:Hm;
    py_run ltac:(rewrite ?Hmedia, ?Hm, ?Hengine); reflexivity.
Qed.

Lemma Predict_format_invalid (d : list (string * json)) (engine : Engine) :
  media req = Some (JDict d) ->
  loaded_engine self model_name version = Some engine ->
  get_input_format (JDict d) (input_key_names engine) = INVALID_FORMAT ->
  Predict_on_post self req model_name requested_version w =
    (inr tt,
     {| in_use := in_use w;
        resp := {| status := HTTP_400;
                   body := json_dumps
                     (JDict [("error",
                              JStr "Invalid inputs in request body")]) |};
        calls := calls w ++
          [Check model_name requested_version;
           Getattr (model_name, version) A_input_key_names; Serialize] |}).
Proof.
  intros Hmedia Hengine Hf. unfold Predict_on_post. rewrite Hcheck.
  unfold loaded_engine in Hengine.
  destruct (self !! model_name) as [model|] eqn:Hm; [|discriminate].
  py_run ltac:(rewrite ?Hmedia, ?Hm, ?Hengine, ?Hf).
  rewrite bool_decide_eq_true_2 by reflexivity. py_red.
  rewrite <- !app_assoc. reflexivity.
Qed.

Lemma Predict_problem (d : list (string * json)) (engine : Engine)
    (message code : string) :
  media req = Some (JDict d) ->
  loaded_engine self model_name version = Some engine ->
  get_input_format (JDict d) (input_key_names engine) <> INVALID_FORMAT ->
  prepare_input_data self model_name version
    (preprocess_json_request (JDict d)
       (get_input_format (JDict d) (input_key_names engine))
       (input_key_names engine)) true
    = Problem message code ->
  Predict_on_post self req model_name requested_version w =
    (inr tt,
     {| in_use := in_use w;
        resp := {| status := code;
                   body := json_dumps (JDict [("error", JStr message)]) |};
        calls := calls w ++
          [Check model_name requested_version;
           Getattr (model_name, version) A_input_key_names;
           Getattr (model_name, version) A_input_key_names; Serialize] |}).
Proof.
  intros Hmedia Hengine Hf Hp. unfold Predict_on_post. rewrite Hcheck.
  unfold loaded_engine in Hengine.
  destruct (self !! model_name) as [model|] eqn:Hm; [|discriminate].
  py_run ltac:(rewrite ?Hmedia, ?Hm, ?Hengine).
  rewrite bool_decide_eq_false_2 by exact Hf.
  py_run ltac:(rewrite ?Hm, ?Hengine, ?Hp).
  rewrite <- !app_assoc. reflexivity.
Qed.

End Rejected.

(** C7, amended.  For a request that passes the model and version check:
    a parsed body that is not a dict is answered 400 with body
    [{"error": "Invalid JSON in request body"}]; a dict body that the format
    discriminator finds invalid (neither row nor column format), the engine
    of the resolved version being loaded, is answered 400 with body
    [{"error": "Invalid inputs in request body"}]. *)
Theorem Predict_invalid_body_is_400 (self : Models) (req : Request)
    (model_name : string) (requested_version : PyArg) (w : World)
    (version : Z) :
  check_availability_of_requested_model self requested_version model_name
    = (true, version) ->
  (forall body,
      media req = Some body -> is_dict body = false ->
      Predict_on_post self req model_name requested_version w =
        (inr tt,
         {| in_use := in_use w;
            resp := {| status := HTTP_400;
                       body := json_dumps
                         (JDict [("error",
                                  JStr "Invalid JSON in request body")]) |};
            calls := calls w ++ [Check model_name requested_version; Serialize] |})) /\
  (forall d model engine,
      media req = Some (JDict d) ->
      self !! model_name = Some model ->
      engines model !! version = Some engine ->
      get_input_format (JDict d) (input_key_names engine) = INVALID_FORMAT ->
      Predict_on_post self req model_name requested_version w =
        (inr tt,
         {| in_use := in_use w;
            resp := {| status := HTTP_400;
                       body := json_dumps
                         (JDict [("error",
                                  JStr "Invalid inputs in request body")]) |};
            calls := calls w ++
              [Check model_name requested_version;
               Getattr (model_name, version) A_input_key_names; Serialize] |})).
Proof.
  intros Hc. split.
  - intros body Hmedia Hdict. unfold Predict_on_post. rewrite Hc.
    py_run ltac:(rewrite ?Hmedia).
    destruct body; try discriminate Hdict; py_red; rewrite <- app_assoc;
      reflexivity.
  - intros d model engine Hmedia Hm He Hf. unfold Predict_on_post.
    rewrite Hc. py_run ltac:(rewrite ?Hmedia, ?Hm, ?He, ?Hf).
    rewrite bool_decide_eq_true_2 by reflexivity. py_red.
    rewrite <- !app_assoc. reflexivity.
Qed.

(** C8.  Every run of Predict is of one of two kinds.  Either no in-use
    count was touched and no [acquire] or [infer] was called; or all the
    validation phases had passed (the check, the body type, the input
    format, the input deserialisation by [prepare_input_data]) and the calls
    of the run begin with the check and the two validation reads, followed
    by [acquire].
    So [acquire] comes after all the validation, and no answer of a failed
    validation phase touches a counter. *)
Theorem Predict_validation_precedes_acquire (self : Models) (req : Request)
    (model_name : string) (requested_version : PyArg) (w : World) :
  let '(r, w') := Predict_on_post self req model_name requested_version w in
  (in_use w' = in_use w /\
   exists evs, calls w' = calls w ++ evs /\
     forall k, ~ In (Acquire k) evs /\ ~ In (Infer k) evs)
  \/
  (exists version d model engine inference_input batch_size evs,
      check_availability_of_requested_model self requested_version model_name
        = (true, version) /\
      media req = Some (JDict d) /\
      self !! model_name = Some model /\
      engines model !! version = Some engine /\
      get_input_format (JDict d) (input_key_names engine) <> INVALID_FORMAT /\
      prepare_input_data self model_name version
        (preprocess_json_request (JDict d)
           (get_input_format (JDict d) (input_key_names engine))
           (input_key_names engine)) true
        = Prepared inference_input batch_size /\
      calls w' = calls w ++
        [Check model_name requested_version;
         Getattr (model_name, version) A_input_key_names;
         Getattr (model_name, version) A_input_key_names;
         Acquire (model_name, version)] ++ evs).
Proof.
  destruct (check_availability_of_requested_model self requested_version
              model_name) as [valid version] eqn:Hc.
  destruct valid.
  2:{ rewrite Predict_not_found by (rewrite Hc; reflexivity). untouched. }
  destruct (media req) as [body|] eqn:Hmedia.
  2:{ rewrite (Predict_unparsable _ _ _ _ _ _ Hc Hmedia). untouched. }
  destruct (is_dict body) eqn:Hdict.
  2:{ rewrite (Predict_body_not_dict _ _ _ _ _ _ Hc _ Hmedia Hdict).
      untouched. }
  destruct body as [| | | | | |d]; try discriminate Hdict.
  destruct (loaded_engine self model_name version) as [engine|] eqn:He.
  2:{ rewrite (Predict_engine_missing _ _ _ _ _ _ Hc _ Hmedia He).
      untouched. }
  destruct (decide (get_input_format (JDict d) (input_key_names engine)
                    = INVALID_FORMAT)) as [Hf|Hf].
  { rewrite (Predict_format_invalid _ _ _ _ _ _ Hc _ _ Hmedia He Hf).
    untouched. }
  destruct (prepare_input_data self model_name version
              (preprocess_json_request (JDict d)
                 (get_input_format (JDict d) (input_key_names engine))
                 (input_key_names engine)) true)
    as [message code|inference_input batch_size] eqn:Hp.
  { rewrite (Predict_problem _ _ _ _ _ _ Hc _ _ _ _ Hmedia He Hf Hp).
    untouched. }
  unfold loaded_engine in He.
  destruct (self !! model_name) as [model|] eqn:Hm; [|discriminate].
  rewrite (Predict_after_acquire self req model_name requested_version w
             version d model engine _ inference_input batch_size
             Hc Hmedia Hm He eq_refl Hf Hp).
  destruct (infer engine inference_input batch_size) as [e|out];
    [destruct e|]; cbn; right;
    exists version, d, model, engine, inference_input, batch_size;
    eexists; repeat (split; [eassumption || reflexivity|]);
    reflexivity.
Qed.

(** C9.  On a request its check rejects, each of the three handlers gives
    the same answer: 404 and the JSON object whose only key is "error", with
    the WRONG_MODEL_SPEC template filled with the requested model name and
    the requested version. *)
Theorem not_found_body_is_shared (self : Models) (req : Request)
    (model_name : string) (requested_version : PyArg) (w : World) :
  let answer :=
    {| status := HTTP_NOT_FOUND;
       body := json_dumps
         (JDict [("error",
                  JStr (format WRONG_MODEL_SPEC
                          [PyStr model_name; requested_version]))]) |} in
  (check_availability_of_requested_status self requested_version model_name
     = false ->
   resp (snd (GetModelStatus_on_get self req model_name requested_version w))
     = answer) /\
  (fst (check_availability_of_requested_model self requested_version
          model_name) = false ->
   resp (snd (GetModelMetadata_on_get self req model_name requested_version w))
     = answer /\
   resp (snd (Predict_on_post self req model_name requested_version w))
     = answer).
Proof.
  intros answer. split.
  - intros Hs. rewrite GetModelStatus_not_found by exact Hs. reflexivity.
  - intros Hm.
    rewrite GetModelMetadata_not_found, Predict_not_found by exact Hm.
    split; reflexivity.
Qed.

(** C10.  A status request that names version 0 is answered as a request
    that names no version: when the availability check passes, the answer
    is 200 with the status entries of every version in the model's version
    map, the answer of the request with no version. *)
Theorem GetModelStatus_version_0_is_all_versions (self : Models)
    (req : Request) (model_name : string) (model : Model) (w : World) :
  check_availability_of_requested_status self (PyStr "0") model_name = true ->
  self !! model_name = Some model ->
  GetModelStatus_on_get self req model_name (PyStr "0") w =
    (inr tt,
     {| in_use := in_use w;
        resp := {| status := HTTP_200;
                   body := StatusToJson (all_statuses model) true |};
        calls := calls w ++ [Check model_name (PyStr "0"); Serialize] |}) /\
  (check_availability_of_requested_status self (PyInt 0) model_name = true ->
   GetModelStatus_on_get self req model_name (PyInt 0) w =
     (inr tt,
      {| in_use := in_use w;
         resp := {| status := HTTP_200;
                    body := StatusToJson (all_statuses model) true |};
         calls := calls w ++ [Check model_name (PyInt 0); Serialize] |})).
Proof.
  intros Hc Hm. split; [|intros Hc0]; unfold GetModelStatus_on_get.
  - change (py_int (PyStr "0")) with (inr 0 : exception + Z).
    py_run ltac:(rewrite ?Hc, ?Hm). change (0 =? 0) with true.
    py_run ltac:(rewrite ?Hm). rewrite <- app_assoc. reflexivity.
  - change (py_int (PyInt 0)) with (inr 0 : exception + Z).
    py_run ltac:(rewrite ?Hc0, ?Hm). change (0 =? 0) with true.
    py_run ltac:(rewrite ?Hm). rewrite <- app_assoc. reflexivity.
Qed.

End OnTheCode.

(** ** Against the helpers the spec describes *)

Lemma fold_add_status (records : list VersionStatus)
    (response : GetModelStatusResponse) :
  fold_left (fun response version_status =>
               Spec.add_status_to_response version_status response)
    records response
  = {| model_version_status :=
         model_version_status response ++ map Spec.status_entry records |}.
Proof.
  revert response. induction records as [|record records IH]; intros response.
  - cbn. rewrite app_nil_r. now destruct response.
  - cbn. rewrite IH. cbn. rewrite <- app_assoc. reflexivity.
Qed.

Section AgainstSpec.

Context {C : Constants} {R : RestMsg} {P : PredictUtils}.

(** C2.  A Predict request that names an unknown model, or for which the
    model has no AVAILABLE version matching the request, is answered 404
    with a JSON object under the key "error"; no in-use count changes and
    the only calls made are the check and the serialiser: no [acquire], no
    [infer]. *)
Theorem Predict_unknown_is_404 (self : Models) (req : Request)
    (model_name : string) (requested_version : PyArg) (w : World) :
  (self !! model_name = None \/
   exists model, self !! model_name = Some model /\
     Spec.matching_version model requested_version = None) ->
  let '(r, w') :=
    @Predict_on_post C Spec.service_utils R P self req model_name
      requested_version w in
  r = inr tt /\
  status (resp w') = HTTP_NOT_FOUND /\
  (exists message,
      body (resp w') = json_dumps (JDict [("error", JStr message)])) /\
  in_use w' = in_use w /\
  calls w' = calls w ++ [Check model_name requested_version; Serialize].
Proof.
  intros Hunknown.
  rewrite (@Predict_not_found C Spec.service_utils R P).
  - repeat split. eexists. reflexivity.
  - cbn. unfold Spec.check_availability_of_requested_model.
    destruct Hunknown as [Hm|(model & Hm & Hv)]; rewrite Hm;
      [|rewrite Hv]; reflexivity.
Qed.

(** C3.  With the response built as the spec describes, a Predict request
    that reaches a successful [infer] is answered 200 in the format of its
    input: a row-format input gives an object under the key "predictions",
    a column-format input an object under the key "outputs". *)
Theorem Predict_response_mirrors_input_format {U : ServiceUtils}
    (template : string)
    (rows : list (string * json) -> list (string * string) -> list json)
    (columns : list (string * json) -> list (string * string) -> json)
    (self : Models) (req : Request) (model_name : string)
    (requested_version : PyArg) (w : World) (version : Z)
    (d : list (string * json)) (model : Model) (engine : Engine)
    (inference_input inference_output : list (string * ndarray))
    (batch_size : Z) :
  let input_format := get_input_format (JDict d) (input_key_names engine) in
  check_availability_of_requested_model self requested_version model_name
    = (true, version) ->
  media req = Some (JDict d) ->
  self !! model_name = Some model ->
  engines model !! version = Some engine ->
  input_format <> INVALID_FORMAT ->
  prepare_input_data self model_name version
    (preprocess_json_request (JDict d) input_format (input_key_names engine))
    true
  = Prepared inference_input batch_size ->
  infer engine inference_input batch_size = inr inference_output ->
  let '(r, w') :=
    @Predict_on_post (Spec.constants template) U
      (Spec.rest_msg R rows columns) P self req model_name requested_version
      w in
  r = inr tt /\
  status (resp w') = HTTP_200 /\
  (input_format = ROW_FORMAT ->
   exists predictions,
     body (resp w') = json_dumps (JDict [("predictions", JList predictions)])) /\
  (input_format = COLUMN_FORMAT ->
   exists outputs,
     body (resp w') = json_dumps (JDict [("outputs", outputs)])).
Proof.
  intros input_format Hc Hmedia Hm He Hf Hp Hinfer.
  rewrite (@Predict_after_acquire (Spec.constants template) U
             (Spec.rest_msg R rows columns) P self req model_name
             requested_version w version d model engine input_format
             inference_input batch_size Hc Hmedia Hm He eq_refl Hf Hp).
  rewrite Hinfer. cbn.
  repeat split; intros ->; cbn; eexists; reflexivity.
Qed.

(** C4.  GetModelStatus, with the availability check the spec describes,
    always returns, changes no in-use count and calls nothing but the check
    and the serialiser.  It answers 404 exactly when the model name is
    unknown or a specific version is requested that has no record;
    otherwise 200, with the entry of the requested version, or with the
    entries of the whole version map when no specific version is
    requested. *)
Theorem GetModelStatus_answers (self : Models) (req : Request)
    (model_name : string) (requested_version : PyArg) (w : World) :
  let '(r, w') :=
    @GetModelStatus_on_get C Spec.service_utils self req model_name
      requested_version w in
  r = inr tt /\
  in_use w' = in_use w /\
  calls w' = calls w ++ [Check model_name requested_version; Serialize] /\
  (status (resp w') = HTTP_NOT_FOUND <->
   self !! model_name = None \/
   exists model, self !! model_name = Some model /\
     Spec.no_specific_version requested_version = false /\
     Spec.has_record model requested_version = false) /\
  match self !! model_name with
  | None => status (resp w') = HTTP_NOT_FOUND
  | Some model =>
      if Spec.no_specific_version requested_version then
        resp w' =
          {| status := HTTP_200;
             body := StatusToJson
               {| model_version_status :=
                    map Spec.status_entry
                      (map snd (versions_statuses model)) |} true |}
      else
        match py_int requested_version with
        | inr v =>
            match assoc v (versions_statuses model) with
            | Some record =>
                resp w' =
                  {| status := HTTP_200;
                     body := StatusToJson
                       {| model_version_status := [Spec.status_entry record] |}
                       true |}
            | None => status (resp w') = HTTP_NOT_FOUND
            end
        | inl _ => status (resp w') = HTTP_NOT_FOUND
        end
  end.
Proof.
  unfold GetModelStatus_on_get. cbn -[py_int format].
  unfold Spec.check_availability_of_requested_status,
    Spec.no_specific_version, Spec.has_record.
  destruct (self !! model_name) as [model|] eqn:Hm.
  2:{ cbn. rewrite <- app_assoc. repeat split; auto. }
  destruct (py_int requested_version) as [e|v] eqn:Hint.
  { cbn. rewrite <- app_assoc. repeat split; eauto. }
  destruct (v =? 0) eqn:Hv.
  { py_run ltac:(rewrite ?Hm, ?Hv). cbn -[format].
    rewrite fold_add_status, <- app_assoc. cbn.
    repeat split; try discriminate.
    intros [Hnone|(model' & _ & Hfalse & _)]; discriminate. }
  destruct (assoc v (versions_statuses model)) as [record|] eqn:Hrecord.
  - rewrite bool_decide_eq_true_2 by eauto.
    py_run ltac:(rewrite ?Hm, ?Hv, ?Hrecord). cbn.
    rewrite <- app_assoc.
    repeat split; try discriminate.
    intros [Hnone|(model' & [= <-] & _ & Hfalse)]; [discriminate|].
    rewrite Hrecord in Hfalse. apply bool_decide_eq_false_1 in Hfalse.
    destruct Hfalse. eauto.
  - assert (Hno : bool_decide (is_Some (@None VersionStatus)) = false)
      by (apply bool_decide_eq_false_2; intros [x Hx]; discriminate).
    rewrite Hno. cbn. rewrite <- app_assoc. repeat split; eauto.
    intros _. right. exists model. rewrite Hrecord. auto.
Qed.

End AgainstSpec.

(** ** Every way out of the handlers *)

Lemma released_count (w : World) (k k' : EngineKey) :
  default 0%nat (released w k !! k') = in_use_count w k'.
Proof.
  unfold released, acquired. destruct (decide (k = k')) as [<-|Hne].
  - rewrite lookup_insert_eq. reflexivity.
  - rewrite !lookup_insert_ne by exact Hne. reflexivity.
Qed.

Lemma acquired_count (w : World) (k k' : EngineKey) :
  default 0%nat (acquired w k !! k')
  = if decide (k = k') then S (in_use_count w k') else in_use_count w k'.
Proof.
  unfold acquired. destruct (decide (k = k')) as [<-|Hne].
  - rewrite lookup_insert_eq. reflexivity.
  - rewrite lookup_insert_ne by exact Hne. reflexivity.
Qed.

Section ExitsHold.

Context {C : Constants} {U : ServiceUtils} {R : RestMsg} {P : PredictUtils}
  {MU : MetadataUtils}.

Variables (self : Models) (req : Request) (model_name : string)
  (requested_version : PyArg) (w : World).

Lemma Predict_exits :
  Predict_exit self req model_name requested_version w
    (Predict_on_post self req model_name requested_version w).
Proof.
  destruct (check_availability_of_requested_model self requested_version
              model_name) as [valid version] eqn:Hc.
  destruct valid.
  2:{ rewrite Predict_not_found by (rewrite Hc; reflexivity).
      eapply exit_not_found; eassumption. }
  destruct (media req) as [body|] eqn:Hmedia.
  2:{ rewrite (Predict_unparsable _ _ _ _ _ _ Hc Hmedia).
      eapply exit_unparsable; eassumption. }
  destruct (is_dict body) eqn:Hdict.
  2:{ rewrite (Predict_body_not_dict _ _ _ _ _ _ Hc _ Hmedia Hdict).
      eapply exit_not_dict; eassumption. }
  destruct body as [| | | | | |d]; try discriminate Hdict.
  destruct (loaded_engine self model_name version) as [engine|] eqn:He.
  2:{ rewrite (Predict_engine_missing _ _ _ _ _ _ Hc _ Hmedia He).
      eapply exit_engine_missing; eassumption. }
  destruct (decide (get_input_format (JDict d) (input_key_names engine)
                    = INVALID_FORMAT)) as [Hf|Hf].
  { rewrite (Predict_format_invalid _ _ _ _ _ _ Hc _ _ Hmedia He Hf).
    eapply exit_invalid_format; eassumption. }
  destruct (prepare_input_data self model_name version
              (preprocess_json_request (JDict d)
                 (get_input_format (JDict d) (input_key_names engine))
                 (input_key_names engine)) true)
    as [message code|inference_input batch_size] eqn:Hp.
  { rewrite (Predict_problem _ _ _ _ _ _ Hc _ _ _ _ Hmedia He Hf Hp).
    eapply exit_problem; eassumption. }
  assert (He' := He). unfold loaded_engine in He'.
  destruct (self !! model_name) as [model|] eqn:Hm; [|discriminate].
  rewrite (Predict_after_acquire self req model_name requested_version w
             version d model engine _ inference_input batch_size
             Hc Hmedia Hm He' eq_refl Hf Hp).
  destruct (infer engine inference_input batch_size) as [e|out] eqn:Hinfer.
  - destruct (is_ValueError e) eqn:Hclass.
    + destruct e; try discriminate Hclass.
      eapply exit_ValueError; eassumption.
    + eapply exit_raised; eassumption.
  - eapply exit_ok; eassumption.
Qed.

Lemma GetModelMetadata_exits :
  GetModelMetadata_exit self model_name requested_version w
    (GetModelMetadata_on_get self req model_name requested_version w).
Proof.
  destruct (check_availability_of_requested_model self requested_version
              model_name) as [valid version] eqn:Hc.
  destruct valid.
  2:{ rewrite GetModelMetadata_not_found by (rewrite Hc; reflexivity).
      eapply metadata_not_found; eassumption. }
  destruct (loaded_engine self model_name version) as [engine|] eqn:He;
    assert (He' := He); unfold loaded_engine in He';
    unfold GetModelMetadata_on_get; rewrite Hc.
  - destruct (self !! model_name) as [model|] eqn:Hm; [|discriminate].
    destruct (in_int64 version) eqn:Hin.
    + py_run ltac:(rewrite ?Hm, ?He', ?Hin). unfold in_use_count. py_red.
      rewrite lookup_insert_eq, <- !app_assoc.
      exact (metadata_ok self model_name requested_version w version engine
               Hc He Hin).
    + py_run ltac:(rewrite ?Hm, ?He', ?Hin). rewrite <- !app_assoc.
      exact (metadata_out_of_range self model_name requested_version w
               version engine Hc He Hin).
  - destruct (self !! model_name) as [model|] eqn:Hm;
      py_run ltac:(rewrite ?Hm, ?He');
      eapply metadata_engine_missing; eassumption.
Qed.

Lemma GetModelStatus_exits :
  GetModelStatus_exit self model_name requested_version w
    (GetModelStatus_on_get self req model_name requested_version w).
Proof.
  destruct (check_availability_of_requested_status self requested_version
              model_name) eqn:Hc.
  2:{ rewrite GetModelStatus_not_found by exact Hc.
      eapply status_not_found; eassumption. }
  unfold GetModelStatus_on_get.
  destruct (py_int requested_version) as [e|v] eqn:Hint.
  { py_run ltac:(rewrite ?Hc, ?Hint).
    eapply status_not_an_int; eassumption. }
  destruct (self !! model_name) as [model|] eqn:Hm.
  2:{ py_run ltac:(rewrite ?Hc, ?Hint).
      destruct (v =? 0); py_run ltac:(rewrite ?Hm);
        eapply status_model_missing; eassumption. }
  destruct (Z.eqb_spec v 0) as [->|Hv].
  { py_run ltac:(rewrite ?Hc, ?Hint).
    change (0 =? 0) with true. py_run ltac:(rewrite ?Hm).
    rewrite <- !app_assoc. eapply status_all; eassumption. }
  assert (Hne : (v =? 0) = false) by (apply Z.eqb_neq; exact Hv).
  destruct (assoc v (versions_statuses model)) as [version_status|] eqn:Hr;
    py_run ltac:(rewrite ?Hc, ?Hint, ?Hne, ?Hm, ?Hr).
  - rewrite <- !app_assoc. eapply status_one; eassumption.
  - eapply status_version_missing; eassumption.
Qed.

End ExitsHold.

(** Splits a run of a handler into its ways out. *)
Ltac by_exits exits :=
  let Hexit := fresh "Hexit" in
  pose proof exits as Hexit;
  match type of Hexit with
  | _ ?run => destruct run as [r w']
  end;
  inversion Hexit; subst; clear Hexit; cbn [fst snd in_use resp calls].

(** Closes a case whose hypotheses give two values to one expression of
    the path, after identifying what they have in common. *)
Ltac merge_paths :=
  repeat match goal with
         | H1 : ?x = _, H2 : ?x = _ |- _ =>
             rewrite H1 in H2; simplify_eq/=
         end.

Ltac same_path := merge_paths; simplify_eq/=; try congruence; try done.

(** Splits two runs of a handler into their ways out. *)
Ltac by_two_exits exits1 exits2 :=
  let H1 := fresh "Hexit" in
  let H2 := fresh "Hexit" in
  pose proof exits1 as H1; pose proof exits2 as H2;
  match type of H1 with
  | _ ?run => destruct run as [r1 w1]
  end;
  match type of H2 with
  | _ ?run => destruct run as [r2 w2]
  end;
  inversion H1; inversion H2; subst; clear H1 H2;
  cbn [fst snd in_use resp calls]; merge_paths.

Section Coverage.

Context {C : Constants} {U : ServiceUtils} {R : RestMsg} {P : PredictUtils}
  {MU : MetadataUtils}.

(** X1.  Whenever Predict returns, whatever the answer, every engine's
    in-use count is what it was before the request. *)
Theorem Predict_return_restores_counts (self : Models) (req : Request)
    (model_name : string) (requested_version : PyArg) (w : World) :
  let run := Predict_on_post self req model_name requested_version w in
  raised (fst run) = false ->
  forall k, in_use_count (snd run) k = in_use_count w k.
Proof.
  intros run. subst run.
  by_exits (Predict_exits self req model_name requested_version w);
    intros Hr k'; try discriminate Hr; try reflexivity;
    apply released_count.
Qed.

(** X2.  A run of Predict changes the in-use count of no engine but the one
    the check resolved, and that one by nothing or by one; it is one higher
    only when the handler is left by an exception of [infer] that is not a
    [ValueError]. *)
Theorem Predict_touches_one_engine (self : Models) (req : Request)
    (model_name : string) (requested_version : PyArg) (w : World) :
  let k :=
    (model_name,
     snd (check_availability_of_requested_model self requested_version
            model_name)) in
  let '(r, w') := Predict_on_post self req model_name requested_version w in
  (forall k', k' <> k -> in_use_count w' k' = in_use_count w k') /\
  (in_use_count w' k = in_use_count w k \/
   in_use_count w' k = S (in_use_count w k) /\
   exists e engine inference_input batch_size,
     r = inl e /\ is_ValueError e = false /\
     loaded_engine self model_name (snd k) = Some engine /\
     infer engine inference_input batch_size = inl e).
Proof.
  intros k. subst k.
  by_exits (Predict_exits self req model_name requested_version w);
    match goal with
    | Hc : check_availability_of_requested_model _ _ _ = _ |- _ =>
        rewrite Hc; cbn [snd]
    end;
    try (split; [intros k' _; reflexivity | left; reflexivity]);
    try (split; [intros k' _; apply released_count
                | left; apply released_count]).
  split.
  - intros k' Hne. unfold in_use_count at 1. cbn [in_use].
    rewrite acquired_count. destruct (decide _) as [Heq|_]; [|reflexivity].
    destruct Hne. symmetry. exact Heq.
  - right. split.
    + unfold in_use_count at 1. cbn [in_use]. rewrite acquired_count.
      destruct (decide _) as [_|Hne]; [reflexivity|].
      destruct Hne. reflexivity.
    + eauto 10.
Qed.

(** X3.  In the calls of a run of Predict, those on an engine's guard and
    runtime are none at all, or [acquire], [infer], [release] once each in
    this order on the resolved engine when the handler returns, or
    [acquire] and [infer] alone when it is left by an exception: [infer]
    runs at most once, and never without the engine held. *)
Theorem Predict_guard_discipline (self : Models) (req : Request)
    (model_name : string) (requested_version : PyArg) (w : World) :
  let k :=
    (model_name,
     snd (check_availability_of_requested_model self requested_version
            model_name)) in
  let '(r, w') := Predict_on_post self req model_name requested_version w in
  exists evs,
    calls w' = calls w ++ evs /\
    (List.filter is_guard_event evs = [] \/
     List.filter is_guard_event evs = [Acquire k; Infer k; Release k] /\
     raised r = false \/
     List.filter is_guard_event evs = [Acquire k; Infer k] /\
     raised r = true).
Proof.
  intros k. subst k.
  by_exits (Predict_exits self req model_name requested_version w);
    match goal with
    | Hc : check_availability_of_requested_model _ _ _ = _ |- _ =>
        rewrite Hc; cbn [snd]
    end;
    eexists; (split; [reflexivity|]); cbn; auto.
Qed.

(** X4.  When [prepare_input_data] reports a problem, Predict answers
    with the status the helper gives and the body
    [{"error": <the helper's message>}], changes no count and calls neither
    [acquire] nor [infer]. *)
Theorem Predict_problem_is_answered (self : Models) (req : Request)
    (model_name : string) (requested_version : PyArg) (w : World)
    (version : Z) (d : list (string * json)) (engine : Engine)
    (message code : string) :
  check_availability_of_requested_model self requested_version model_name
    = (true, version) ->
  media req = Some (JDict d) ->
  loaded_engine self model_name version = Some engine ->
  get_input_format (JDict d) (input_key_names engine) <> INVALID_FORMAT ->
  prepare_input_data self model_name version
    (preprocess_json_request (JDict d)
       (get_input_format (JDict d) (input_key_names engine))
       (input_key_names engine)) true
    = Problem message code ->
  let '(r, w') := Predict_on_post self req model_name requested_version w in
  r = inr tt /\
  resp w' =
    {| status := code;
       body := json_dumps (JDict [("error", JStr message)]) |} /\
  in_use w' = in_use w /\
  calls w' = calls w ++
    [Check model_name requested_version;
     Getattr (model_name, version) A_input_key_names;
     Getattr (model_name, version) A_input_key_names; Serialize].
Proof.
  intros Hc Hmedia He Hf Hp.
  rewrite (Predict_problem _ _ _ _ _ _ Hc _ _ _ _ Hmedia He Hf Hp).
  repeat split.
Qed.

(** X5.  A handler that is left by an exception has written nothing to
    the response: status and body are what they were. *)
Theorem exception_leaves_response_unwritten (self : Models) (req : Request)
    (model_name : string) (requested_version : PyArg) (w : World) :
  (raised (fst (GetModelStatus_on_get self req model_name requested_version w))
     = true ->
   resp (snd (GetModelStatus_on_get self req model_name requested_version w))
     = resp w) /\
  (raised (fst (GetModelMetadata_on_get self req model_name requested_version
                  w)) = true ->
   resp (snd (GetModelMetadata_on_get self req model_name requested_version w))
     = resp w) /\
  (raised (fst (Predict_on_post self req model_name requested_version w))
     = true ->
   resp (snd (Predict_on_post self req model_name requested_version w))
     = resp w).
Proof.
  split; [|split].
  - by_exits (GetModelStatus_exits self req model_name requested_version w);
      intros Hr; try discriminate Hr; reflexivity.
  - by_exits (GetModelMetadata_exits self req model_name requested_version w);
      intros Hr; try discriminate Hr; reflexivity.
  - by_exits (Predict_exits self req model_name requested_version w);
      intros Hr; try discriminate Hr; reflexivity.
Qed.

(** X7.  GetModelMetadata is left by an exception in exactly two cases,
    both after the check has passed: the [KeyError] of the engine subscript,
    when the engine of the resolved version is not loaded, before anything
    is acquired; and the [ValueError] of the assignment to the int64 field
    [model_spec.version.value], when the resolved version is out of its
    range, after the engine is acquired and read and with no release, so
    that its in-use count stays one higher.  Whenever the handler returns,
    every in-use count is what it was. *)
Theorem GetModelMetadata_counts_and_exceptions (self : Models) (req : Request)
    (model_name : string) (requested_version : PyArg) (w : World) :
  let valid :=
    fst (check_availability_of_requested_model self requested_version
           model_name) in
  let version :=
    snd (check_availability_of_requested_model self requested_version
           model_name) in
  let k := (model_name, version) in
  let '(r, w') :=
    GetModelMetadata_on_get self req model_name requested_version w in
  (forall e, r = inl e <->
             valid = true /\
             (e = KeyError /\ loaded_engine self model_name version = None \/
              e = ValueError /\
              is_Some (loaded_engine self model_name version) /\
              in_int64 version = false)) /\
  match r with
  | inr _ => forall k', in_use_count w' k' = in_use_count w k'
  | inl KeyError =>
      in_use w' = in_use w /\
      calls w' = calls w ++ [Check model_name requested_version]
  | inl _ =>
      in_use_count w' k = S (in_use_count w k) /\
      calls w' = calls w ++
        [Check model_name requested_version; Acquire k;
         Getattr k A_input_tensors; Getattr k A_output_tensors;
         Getattr k A_model_keys]
  end.
Proof.
  intros valid version k. subst valid version k.
  by_exits (GetModelMetadata_exits self req model_name requested_version w);
    match goal with
    | Hc : check_availability_of_requested_model _ _ _ = _ |- _ =>
        rewrite Hc; cbn [fst snd]
    end;
    (split;
     [intros e; split;
      [intros Hr; try discriminate Hr; injection Hr as <-;
       (split; [reflexivity|]); eauto
      |intros (Hv & [(-> & He)|(-> & [engine' He] & Hin)]);
       try discriminate Hv; same_path]|]).
  - intros k'. reflexivity.
  - split; reflexivity.
  - split; [|reflexivity]. unfold in_use_count at 1. cbn [in_use].
    rewrite acquired_count.
    destruct (decide _) as [_|Hne]; [reflexivity|]. destruct Hne. reflexivity.
  - intros k'. apply released_count.
Qed.

(** X8.  GetModelStatus, whatever its helpers answer, changes no in-use
    count and makes no call on any engine: its calls are the check, and the
    serialiser when it returns. *)
Theorem GetModelStatus_never_touches_engines (self : Models) (req : Request)
    (model_name : string) (requested_version : PyArg) (w : World) :
  let '(r, w') :=
    GetModelStatus_on_get self req model_name requested_version w in
  in_use w' = in_use w /\
  calls w' = calls w ++
    Check model_name requested_version
    :: (if raised r then [] else [Serialize]).
Proof.
  by_exits (GetModelStatus_exits self req model_name requested_version w);
    split; reflexivity.
Qed.

(** X9.  GetModelStatus is left by an exception exactly when the check
    lets through a request that the handler cannot serve: a version that is
    no integer ([ValueError] of [int]), a model that is not in the store, or
    a specific version with no entry in [versions_statuses] (both
    [KeyError]). *)
Theorem GetModelStatus_raises_exactly (self : Models) (req : Request)
    (model_name : string) (requested_version : PyArg) (w : World)
    (e : exception) :
  fst (GetModelStatus_on_get self req model_name requested_version w) = inl e
  <->
  check_availability_of_requested_status self requested_version model_name
    = true /\
  (py_int requested_version = inl e \/
   exists v,
     py_int requested_version = inr v /\ e = KeyError /\
     (self !! model_name = None \/
      exists model,
        self !! model_name = Some model /\ v <> 0 /\
        assoc v (versions_statuses model) = None)).
Proof.
  split.
  - by_exits (GetModelStatus_exits self req model_name requested_version w);
      intros Hr; try discriminate Hr; injection Hr as <-;
      (split; [assumption|]); eauto 10.
  - intros [Hc Hcases].
    by_exits (GetModelStatus_exits self req model_name requested_version w);
      try congruence;
      destruct Hcases as [Hint|(v' & Hint & -> & Hwhy)]; try congruence;
      destruct Hwhy as [Hm|(model' & Hm & Hne & Hr)]; congruence.
Qed.

(** X6.  Predict is left by an exception exactly in three cases, all
    after the check has passed: the body does not parse ([RuntimeError]
    here, falcon's [HTTPBadRequest]); the body is a dict and the engine of
    the resolved version is not loaded ([KeyError] of the subscript); or the
    request is validated and [infer] raises an exception that is not a
    [ValueError], which is the exception the handler is left by. *)
Theorem Predict_raises_exactly (self : Models) (req : Request)
    (model_name : string) (requested_version : PyArg) (w : World)
    (e : exception) :
  fst (Predict_on_post self req model_name requested_version w) = inl e
  <->
  exists version,
    check_availability_of_requested_model self requested_version model_name
      = (true, version) /\
    (media req = None /\ e = RuntimeError \/
     exists d,
       media req = Some (JDict d) /\
       (loaded_engine self model_name version = None /\ e = KeyError \/
        exists engine inference_input batch_size,
          loaded_engine self model_name version = Some engine /\
          get_input_format (JDict d) (input_key_names engine)
            <> INVALID_FORMAT /\
          prepare_input_data self model_name version
            (preprocess_json_request (JDict d)
               (get_input_format (JDict d) (input_key_names engine))
               (input_key_names engine)) true
            = Prepared inference_input batch_size /\
          infer engine inference_input batch_size = inl e /\
          is_ValueError e = false)).
Proof.
  split.
  - by_exits (Predict_exits self req model_name requested_version w);
      intros Hr; try discriminate Hr; injection Hr as <-;
      eexists; (split; [eassumption|]); eauto 15.
  - intros (version & Hc & Hcases).
    by_exits (Predict_exits self req model_name requested_version w);
      destruct Hcases
        as [[Hm ->]
           |(d' & Hm & [[He ->]|(engine' & input' & bs' & He & Hf & Hp
                                  & Hi & Hclass)])];
      same_path.
Qed.

(** X10.  A handler that returns has assigned both the status and the
    body.  GetModelStatus and GetModelMetadata answer 404 when their check
    rejects the request and 200 when it passes; Predict answers 404, 400,
    200, or the status that [prepare_input_data] gives with a problem. *)
Theorem returned_answers (self : Models) (req : Request)
    (model_name : string) (requested_version : PyArg) (w : World) :
  let s := GetModelStatus_on_get self req model_name requested_version w in
  let m := GetModelMetadata_on_get self req model_name requested_version w in
  let p := Predict_on_post self req model_name requested_version w in
  (raised (fst s) = false ->
   body (resp (snd s)) <> NoBody /\
   status (resp (snd s)) =
     if check_availability_of_requested_status self requested_version
          model_name
     then HTTP_200 else HTTP_NOT_FOUND) /\
  (raised (fst m) = false ->
   body (resp (snd m)) <> NoBody /\
   status (resp (snd m)) =
     if fst (check_availability_of_requested_model self requested_version
               model_name)
     then HTTP_200 else HTTP_NOT_FOUND) /\
  (raised (fst p) = false ->
   body (resp (snd p)) <> NoBody /\
   (status (resp (snd p)) = HTTP_NOT_FOUND \/
    status (resp (snd p)) = HTTP_400 \/
    status (resp (snd p)) = HTTP_200 \/
    exists version inputs message,
      prepare_input_data self model_name version inputs true
        = Problem message (status (resp (snd p))))).
Proof.
  intros s m p. subst s m p. split; [|split].
  - by_exits (GetModelStatus_exits self req model_name requested_version w);
      intros Hr; try discriminate Hr;
      match goal with
      | Hc : check_availability_of_requested_status _ _ _ = _ |- _ =>
          rewrite Hc
      end; split; try reflexivity; discriminate.
  - by_exits (GetModelMetadata_exits self req model_name requested_version w);
      intros Hr; try discriminate Hr;
      match goal with
      | Hc : check_availability_of_requested_model _ _ _ = _ |- _ =>
          rewrite Hc
      end; split; try reflexivity; discriminate.
  - by_exits (Predict_exits self req model_name requested_version w);
      intros Hr; try discriminate Hr;
      (split; [discriminate|]); cbn; eauto 10.
Qed.

(** X13.  A validated Predict request whose [infer] returns is answered
    200 with [json.dumps] of what [prepare_json_response] makes of the
    representation for the input format, the output blobs turned into lists
    under their own keys, and the engine's output keys.  The engine is
    released before its output keys are read and the answer serialised, and
    every count is back at its value. *)
Theorem Predict_success (self : Models) (req : Request)
    (model_name : string) (requested_version : PyArg) (w : World)
    (version : Z) (d : list (string * json)) (engine : Engine)
    (inference_input inference_output : list (string * ndarray))
    (batch_size : Z) :
  let input_format := get_input_format (JDict d) (input_key_names engine) in
  let k := (model_name, version) in
  check_availability_of_requested_model self requested_version model_name
    = (true, version) ->
  media req = Some (JDict d) ->
  loaded_engine self model_name version = Some engine ->
  input_format <> INVALID_FORMAT ->
  prepare_input_data self model_name version
    (preprocess_json_request (JDict d) input_format (input_key_names engine))
    true
    = Prepared inference_input batch_size ->
  infer engine inference_input batch_size = inr inference_output ->
  let '(r, w') := Predict_on_post self req model_name requested_version w in
  r = inr tt /\
  resp w' =
    {| status := HTTP_200;
       body := json_dumps
         (prepare_json_response (OUTPUT_REPRESENTATION input_format)
            (map (fun '(key, value) => (key, tolist value)) inference_output)
            (outputs (model_keys engine))) |} /\
  (forall k', in_use_count w' k' = in_use_count w k') /\
  calls w' = calls w ++
    [Check model_name requested_version;
     Getattr k A_input_key_names; Getattr k A_input_key_names;
     Acquire k; Infer k; Release k; Getattr k A_model_keys; Serialize].
Proof.
  intros input_format k Hc Hmedia He Hf Hp Hinfer.
  assert (He' := He). unfold loaded_engine in He'.
  destruct (self !! model_name) as [model|] eqn:Hm; [|discriminate].
  rewrite (Predict_after_acquire self req model_name requested_version w
             version d model engine _ inference_input batch_size
             Hc Hmedia Hm He' eq_refl Hf Hp), Hinfer.
  repeat split. intros k'. apply released_count.
Qed.

(** X11.  GetModelMetadata and Predict use the requested version only to
    resolve it (and to word the 404 answer): two requests that the check
    resolves to the same version, as a request for the latest version and a
    request that names that version, get the same result, the same answer
    and the same in-use counts. *)
Theorem answer_depends_on_resolved_version (self : Models) (req : Request)
    (model_name : string) (version_1 version_2 : PyArg) (w : World)
    (version : Z) :
  check_availability_of_requested_model self version_1 model_name
    = (true, version) ->
  check_availability_of_requested_model self version_2 model_name
    = (true, version) ->
  let m1 := GetModelMetadata_on_get self req model_name version_1 w in
  let m2 := GetModelMetadata_on_get self req model_name version_2 w in
  let p1 := Predict_on_post self req model_name version_1 w in
  let p2 := Predict_on_post self req model_name version_2 w in
  (fst m1 = fst m2 /\ resp (snd m1) = resp (snd m2) /\
   in_use (snd m1) = in_use (snd m2)) /\
  (fst p1 = fst p2 /\ resp (snd p1) = resp (snd p2) /\
   in_use (snd p1) = in_use (snd p2)).
Proof.
  intros Hc1 Hc2 m1 m2 p1 p2. subst m1 m2 p1 p2. split.
  - by_two_exits
      (GetModelMetadata_exits self req model_name version_1 w)
      (GetModelMetadata_exits self req model_name version_2 w);
      simplify_eq/=; repeat split.
  - by_two_exits
      (Predict_exits self req model_name version_1 w)
      (Predict_exits self req model_name version_2 w);
      simplify_eq/=; repeat split.
Qed.

(** The in-use count of an engine after one routed request: not lower than
    before, and higher by one at most, and only when the responder
    raised. *)
Lemma respond_count_bounds (models : Models) (route : Route) (req : Request)
    (w : World) (k : EngineKey) :
  let '(r, w') := respond models route req w in
  (in_use_count w k <= in_use_count w' k
   <= in_use_count w k + (if raised r then 1 else 0))%nat.
Proof.
  destruct route as [name|name v|name|name v|name|name v]; cbn [respond];
    [ by_exits (GetModelStatus_exits models req name (PyInt 0) w)
    | by_exits (GetModelStatus_exits models req name (PyStr v) w)
    | by_exits (GetModelMetadata_exits models req name (PyInt 0) w)
    | by_exits (GetModelMetadata_exits models req name (PyStr v) w)
    | by_exits (Predict_exits models req name (PyInt 0) w)
    | by_exits (Predict_exits models req name (PyStr v) w) ];
    cbn [raised]; unfold in_use_count; cbn [in_use];
    rewrite ?released_count, ?acquired_count; unfold in_use_count;
    try case_decide; lia.
Qed.

(** X12.  However many requests the application serves on its six routes,
    no engine's in-use count ever falls below its value at the start, and it
    exceeds that value by at most the number of requests whose responder
    was left by an exception; when every responder returned, every count is
    back at its value. *)
Theorem serve_count_bounds (models : Models)
    (requests : list (Route * Request)) (w : World) (k : EngineKey) :
  let '(rs, w') := serve models requests w in
  (in_use_count w k <= in_use_count w' k
   <= in_use_count w k + length (List.filter raised rs))%nat.
Proof.
  revert w. induction requests as [|[route req] rest IH]; intros w.
  - cbn. lia.
  - cbn [serve].
    pose proof (respond_count_bounds models route req
                  {| in_use := in_use w;
                     resp := {| status := HTTP_200; body := NoBody |};
                     calls := calls w |} k) as Hone.
    destruct (respond models route req _) as [r w1].
    specialize (IH w1). destruct (serve models rest w1) as [rs w2].
    change (in_use_count
              {| in_use := in_use w;
                 resp := {| status := HTTP_200; body := NoBody |};
                 calls := calls w |} k)
      with (in_use_count w k) in Hone.
    cbn [List.filter]. destruct (raised r); cbn [length]; lia.
Qed.

End Coverage.

(** ** The concrete server *)

Module Scenario.

Import Resnet.

(** S4: a row-format Predict on the latest version. *)
Example predict_rows :
  let '(r, w') :=
    predict (post (JDict [("instances", JList [JList [JFloat "1.0"]])]))
      "resnet" (PyInt 0) in
  r = inr tt /\
  resp w' =
    {| status := HTTP_200;
       body := json_dumps
         (JDict [("predictions", JList [JList [JList [JFloat "0.5"]]])]) |} /\
  in_use_count w' ("resnet", 1) = 0%nat.
Proof. vm_compute. repeat split. Qed.

(** S5: Predict on a version that is not there. *)
Example predict_missing_version :
  let '(r, w') :=
    predict (post (JDict [("instances", JList [JList [JFloat "1.0"]])]))
      "resnet" (PyStr "99") in
  r = inr tt /\
  resp w' =
    {| status := HTTP_NOT_FOUND;
       body := json_dumps
         (JDict [("error",
                  JStr "Servable not found for request: Specific(resnet, 99)")])
    |}.
Proof. vm_compute. repeat split. Qed.

(** Version 2 has a record but is not AVAILABLE: its status is served, a
    Predict on it is not. *)
Example status_of_retired_version :
  resp (snd (get_status "resnet" (PyStr "2"))) =
    {| status := HTTP_200;
       body := StatusToJson
         {| model_version_status := [Spec.status_entry record_v2] |} true |} /\
  status (resp (snd (predict (post (JDict [])) "resnet" (PyStr "2"))))
    = HTTP_NOT_FOUND.
Proof. vm_compute. repeat split. Qed.

(** [int] on the version texts a client can send. *)
Example int_of_version_texts :
  py_int (PyStr " 42 ") = inr 42 /\
  py_int (PyStr "-7") = inr (- 7) /\
  py_int (PyStr "1_000") = inr 1000 /\
  py_int (PyStr "1__0") = inl ValueError /\
  py_int (PyStr "latest") = inl ValueError /\
  py_int (PyStr separator_then_one) = inl ValueError /\
  py_int (PyStr fullwidth_one) = inr 1.
Proof. vm_compute. repeat split. Qed.

(** A version beyond int64: the metadata handler is left by the
    [ValueError] of line 103 with the engine still acquired. *)
Example metadata_beyond_int64 :
  let '(r, w') :=
    @GetModelMetadata_on_get constants Spec.service_utils metadata_utils
      models_beyond_int64 {| media := None |} "resnet" (PyInt 0) w0 in
  r = inl ValueError /\
  in_use_count w' ("resnet", 2 ^ 63) = 1%nat /\
  resp w' = resp w0.
Proof. vm_compute. repeat split. Qed.

End Scenario.

(** ** Instances of the theorems on the concrete server *)

Lemma Predict_no_release_on_other_exception_witness :
  let '(r, w') :=
    Resnet.predict (Resnet.post (JDict [("inputs", JList [])])) "resnet"
      (PyStr "1") in
  r = inl RuntimeError /\
  in_use_count w' ("resnet", 1) = S (in_use_count Resnet.w0 ("resnet", 1)) /\
  calls w' =
    calls Resnet.w0 ++
    [Check "resnet" (PyStr "1");
     Getattr ("resnet", 1) A_input_key_names;
     Getattr ("resnet", 1) A_input_key_names;
     Acquire ("resnet", 1); Infer ("resnet", 1)].
Proof.
  apply (@Predict_no_release_on_other_exception Resnet.constants
           Spec.service_utils Resnet.rest_msg Resnet.predict_utils
           Resnet.models (Resnet.post (JDict [("inputs", JList [])]))
           "resnet" (PyStr "1") Resnet.w0 1 [("inputs", JList [])]
           Resnet.resnet Resnet.engine_v1 COLUMN_FORMAT
           [("input", Array (JList []))] 0);
    try reflexivity; discriminate.
Defined.

Lemma Predict_ValueError_is_400_and_released_witness :
  let '(r, w') :=
    Resnet.predict (Resnet.post (JDict [("inputs", JInt 3)])) "resnet"
      (PyStr "1") in
  r = inr tt /\
  resp w' =
    {| status := HTTP_400;
       body := json_dumps (JDict [("error", JStr "Malformed input data")]) |} /\
  (forall k', in_use_count w' k' = in_use_count Resnet.w0 k') /\
  calls w' =
    calls Resnet.w0 ++
    [Check "resnet" (PyStr "1");
     Getattr ("resnet", 1) A_input_key_names;
     Getattr ("resnet", 1) A_input_key_names;
     Acquire ("resnet", 1); Infer ("resnet", 1);
     Release ("resnet", 1); Serialize].
Proof.
  apply (@Predict_ValueError_is_400_and_released Resnet.constants
           Spec.service_utils Resnet.rest_msg Resnet.predict_utils
           Resnet.models (Resnet.post (JDict [("inputs", JInt 3)]))
           "resnet" (PyStr "1") Resnet.w0 1 [("inputs", JInt 3)]
           Resnet.resnet Resnet.engine_v1 COLUMN_FORMAT
           [("input", Array (JInt 3))] 1);
    try reflexivity; discriminate.
Defined.

(** C6 as stated fails: here [infer] raises, and the handler neither
    returns, nor answers 400, nor releases the engine. *)
Lemma Predict_infer_raises_without_400 :
  infer Resnet.engine_v1 [("input", Array (JList []))] 0 = inl RuntimeError /\
  let '(r, w') :=
    Resnet.predict (Resnet.post (JDict [("inputs", JList [])])) "resnet"
      (PyStr "1") in
  r = inl RuntimeError /\
  status (resp w') <> HTTP_400 /\
  body (resp w')
    <> json_dumps (JDict [("error", JStr "Malformed input data")]) /\
  in_use_count w' ("resnet", 1) <> in_use_count Resnet.w0 ("resnet", 1).
Proof. vm_compute. repeat split; discriminate. Qed.

(** C7 as stated fails: the body is not a dict, and the answer is 404, not
    400, because the model is unknown; the same for a dict body in neither
    format. *)
Lemma Predict_invalid_body_of_unknown_model_is_404 :
  is_dict (JInt 3) = false /\
  status (resp (snd (Resnet.predict (Resnet.post (JInt 3)) "ghost" (PyInt 0))))
    = HTTP_NOT_FOUND /\
  Spec.get_input_format (JDict [("rows", JList [])]) [] = INVALID_FORMAT /\
  status (resp (snd (Resnet.predict
                       (Resnet.post (JDict [("rows", JList [])])) "ghost"
                       (PyInt 0))))
    = HTTP_NOT_FOUND /\
  HTTP_NOT_FOUND <> HTTP_400.
Proof. vm_compute. repeat split; discriminate. Qed.

Lemma Predict_invalid_body_is_400_witness :
  Resnet.predict (Resnet.post (JInt 3)) "resnet" (PyInt 0) =
    (inr tt,
     {| in_use := in_use Resnet.w0;
        resp := {| status := HTTP_400;
                   body := json_dumps
                     (JDict [("error",
                              JStr "Invalid JSON in request body")]) |};
        calls := calls Resnet.w0 ++ [Check "resnet" (PyInt 0); Serialize] |}) /\
  Resnet.predict (Resnet.post (JDict [("rows", JList [])])) "resnet"
    (PyInt 0) =
    (inr tt,
     {| in_use := in_use Resnet.w0;
        resp := {| status := HTTP_400;
                   body := json_dumps
                     (JDict [("error",
                              JStr "Invalid inputs in request body")]) |};
        calls := calls Resnet.w0 ++
          [Check "resnet" (PyInt 0);
           Getattr ("resnet", 1) A_input_key_names; Serialize] |}).
Proof.
  split.
  - apply (proj1 (@Predict_invalid_body_is_400 Resnet.constants
                    Spec.service_utils Resnet.rest_msg Resnet.predict_utils
                    Resnet.models (Resnet.post (JInt 3)) "resnet" (PyInt 0)
                    Resnet.w0 1 eq_refl) (JInt 3));
      reflexivity.
  - apply (proj2 (@Predict_invalid_body_is_400 Resnet.constants
                    Spec.service_utils Resnet.rest_msg Resnet.predict_utils
                    Resnet.models (Resnet.post (JDict [("rows", JList [])]))
                    "resnet" (PyInt 0) Resnet.w0 1 eq_refl)
             [("rows", JList [])] Resnet.resnet Resnet.engine_v1);
      reflexivity.
Defined.

Lemma not_found_body_is_shared_witness :
  let answer :=
    {| status := HTTP_NOT_FOUND;
       body := json_dumps
         (JDict [("error",
                  JStr "Servable not found for request: Specific(resnet, 99)")])
    |} in
  resp (snd (Resnet.get_status "resnet" (PyStr "99"))) = answer /\
  resp (snd (Resnet.get_metadata "resnet" (PyStr "99"))) = answer /\
  resp (snd (Resnet.predict (Resnet.post JNull) "resnet" (PyStr "99")))
    = answer.
Proof.
  destruct (@not_found_body_is_shared Resnet.constants Spec.service_utils
              Resnet.rest_msg Resnet.predict_utils Resnet.metadata_utils
              Resnet.models (Resnet.post JNull) "resnet" (PyStr "99")
              Resnet.w0) as [Hstatus Hmodel].
  split; [exact (Hstatus eq_refl) | exact (Hmodel eq_refl)].
Defined.

Lemma GetModelStatus_version_0_is_all_versions_witness :
  let all :=
    {| status := HTTP_200;
       body := StatusToJson
         {| model_version_status :=
              [Spec.status_entry Resnet.record_v1;
               Spec.status_entry Resnet.record_v2] |} true |} in
  Resnet.get_status "resnet" (PyStr "0") =
    (inr tt,
     {| in_use := in_use Resnet.w0;
        resp := all;
        calls := calls Resnet.w0 ++ [Check "resnet" (PyStr "0"); Serialize] |})
  /\
  Resnet.get_status "resnet" (PyInt 0) =
    (inr tt,
     {| in_use := in_use Resnet.w0;
        resp := all;
        calls := calls Resnet.w0 ++ [Check "resnet" (PyInt 0); Serialize] |}).
Proof.
  destruct (@GetModelStatus_version_0_is_all_versions Resnet.constants
              Spec.service_utils Resnet.models {| media := None |} "resnet"
              Resnet.resnet Resnet.w0 eq_refl eq_refl) as [Hall Hsame].
  split; [exact Hall | exact (Hsame eq_refl)].
Defined.

Lemma GetModelMetadata_order_and_response_witness :
  (let k := ("resnet", 1) in
   let '(r, w') := Resnet.get_metadata "resnet" (PyInt 0) in
   r = inr tt /\
   calls w' = calls Resnet.w0 ++
     [Check "resnet" (PyInt 0);
      Acquire k; Getattr k A_input_tensors; Getattr k A_output_tensors;
      Getattr k A_model_keys; Release k; Serialize] /\
   resp w' =
     {| status := HTTP_200;
        body := MetadataToJson
          {| model_spec_name := "resnet";
             model_spec_version_value := 1;
             metadata :=
               [("signature_def",
                 {| signature_def :=
                      [("serving_default",
                        {| sig_inputs := input_tensors Resnet.engine_v1;
                           sig_outputs := output_tensors Resnet.engine_v1 |})]
                 |})] |} |} /\
   in_use_count w' k = in_use_count Resnet.w0 k) /\
  (let '(r, w') := Resnet.get_metadata "resnet" (PyStr "2") in
   r = inr tt /\ status (resp w') = HTTP_NOT_FOUND).
Proof.
  split.
  - apply (proj1 (@GetModelMetadata_order_and_response Resnet.constants
                    Spec.service_utils Resnet.metadata_utils Resnet.models
                    {| media := None |} "resnet" (PyInt 0) Resnet.w0)
             1 Resnet.resnet Resnet.engine_v1); first [reflexivity | lia].
  - apply (proj2 (@GetModelMetadata_order_and_response Resnet.constants
                    Spec.service_utils Resnet.metadata_utils Resnet.models
                    {| media := None |} "resnet" (PyStr "2") Resnet.w0));
      reflexivity.
Defined.

Lemma Predict_unknown_is_404_witness :
  (let '(r, w') := Resnet.predict (Resnet.post JNull) "ghost" (PyInt 0) in
   r = inr tt /\
   status (resp w') = HTTP_NOT_FOUND /\
   (exists message,
       body (resp w') = json_dumps (JDict [("error", JStr message)])) /\
   in_use w' = in_use Resnet.w0 /\
   calls w' = calls Resnet.w0 ++ [Check "ghost" (PyInt 0); Serialize]) /\
  (let '(r, w') := Resnet.predict (Resnet.post JNull) "resnet" (PyStr "2") in
   r = inr tt /\
   status (resp w') = HTTP_NOT_FOUND /\
   (exists message,
       body (resp w') = json_dumps (JDict [("error", JStr message)])) /\
   in_use w' = in_use Resnet.w0 /\
   calls w' = calls Resnet.w0 ++ [Check "resnet" (PyStr "2"); Serialize]).
Proof.
  split.
  - apply (@Predict_unknown_is_404 Resnet.constants Resnet.rest_msg
             Resnet.predict_utils Resnet.models (Resnet.post JNull) "ghost"
             (PyInt 0) Resnet.w0).
    left. reflexivity.
  - apply (@Predict_unknown_is_404 Resnet.constants Resnet.rest_msg
             Resnet.predict_utils Resnet.models (Resnet.post JNull) "resnet"
             (PyStr "2") Resnet.w0).
    right. exists Resnet.resnet. split; reflexivity.
Defined.

Lemma Predict_response_mirrors_input_format_witness :
  (let '(r, w') :=
     Resnet.predict
       (Resnet.post (JDict [("instances", JList [JList [JFloat "1.0"]])]))
       "resnet" (PyInt 0) in
   r = inr tt /\
   status (resp w') = HTTP_200 /\
   (ROW_FORMAT = ROW_FORMAT ->
    exists predictions,
      body (resp w')
      = json_dumps (JDict [("predictions", JList predictions)])) /\
   (ROW_FORMAT = COLUMN_FORMAT ->
    exists outputs,
      body (resp w') = json_dumps (JDict [("outputs", outputs)]))) /\
  (let '(r, w') :=
     Resnet.predict
       (Resnet.post (JDict [("inputs", JList [JList [JFloat "1.0"]])]))
       "resnet" (PyInt 0) in
   r = inr tt /\
   status (resp w') = HTTP_200 /\
   (COLUMN_FORMAT = ROW_FORMAT ->
    exists predictions,
      body (resp w')
      = json_dumps (JDict [("predictions", JList predictions)])) /\
   (COLUMN_FORMAT = COLUMN_FORMAT ->
    exists outputs,
      body (resp w') = json_dumps (JDict [("outputs", outputs)]))).
Proof.
  split.
  - apply (@Predict_response_mirrors_input_format
             (Build_RestMsg Spec.get_input_format
                (@preprocess_json_request Resnet.rest_msg)
                (@prepare_json_response Resnet.rest_msg))
             Resnet.predict_utils Spec.service_utils
             "Servable not found for request: Specific({}, {})"
             (fun out _ => map snd out) (fun out _ => JDict out)
             Resnet.models
             (Resnet.post
                (JDict [("instances", JList [JList [JFloat "1.0"]])]))
             "resnet" (PyInt 0) Resnet.w0 1
             [("instances", JList [JList [JFloat "1.0"]])]
             Resnet.resnet Resnet.engine_v1
             [("input", Array (JList [JList [JFloat "1.0"]]))]
             [(Resnet.out_name, Array (JList [JList [JFloat "0.5"]]))] 1);
      try reflexivity; discriminate.
  - apply (@Predict_response_mirrors_input_format
             (Build_RestMsg Spec.get_input_format
                (@preprocess_json_request Resnet.rest_msg)
                (@prepare_json_response Resnet.rest_msg))
             Resnet.predict_utils Spec.service_utils
             "Servable not found for request: Specific({}, {})"
             (fun out _ => map snd out) (fun out _ => JDict out)
             Resnet.models
             (Resnet.post
                (JDict [("inputs", JList [JList [JFloat "1.0"]])]))
             "resnet" (PyInt 0) Resnet.w0 1
             [("inputs", JList [JList [JFloat "1.0"]])]
             Resnet.resnet Resnet.engine_v1
             [("input", Array (JList [JList [JFloat "1.0"]]))]
             [(Resnet.out_name, Array (JList [JList [JFloat "0.5"]]))] 1);
      try reflexivity; discriminate.
Defined.

Lemma Predict_return_restores_counts_witness :
  let run :=
    Resnet.predict (Resnet.post (JDict [("inputs", JInt 3)])) "resnet"
      (PyStr "1") in
  raised (fst run) = false /\
  in_use_count (snd run) ("resnet", 1) = in_use_count Resnet.w0 ("resnet", 1).
Proof.
  split; [reflexivity|].
  apply (@Predict_return_restores_counts Resnet.constants Spec.service_utils
           Resnet.rest_msg Resnet.predict_utils Resnet.models
           (Resnet.post (JDict [("inputs", JInt 3)])) "resnet" (PyStr "1")
           Resnet.w0).
  reflexivity.
Defined.

Lemma Predict_problem_is_answered_witness :
  let '(r, w') :=
    @Predict_on_post Resnet.constants Spec.service_utils Resnet.rest_msg
      Resnet.strict_predict_utils Resnet.models
      (Resnet.post (JDict [("inputs", JInt 3)])) "resnet" (PyStr "1")
      Resnet.w0 in
  r = inr tt /\
  resp w' =
    {| status := HTTP_400;
       body := json_dumps (JDict [("error", JStr "Invalid inputs")]) |} /\
  in_use w' = in_use Resnet.w0 /\
  calls w' = calls Resnet.w0 ++
    [Check "resnet" (PyStr "1");
     Getattr ("resnet", 1) A_input_key_names;
     Getattr ("resnet", 1) A_input_key_names; Serialize].
Proof.
  apply (@Predict_problem_is_answered Resnet.constants Spec.service_utils
           Resnet.rest_msg Resnet.strict_predict_utils Resnet.models
           (Resnet.post (JDict [("inputs", JInt 3)])) "resnet" (PyStr "1")
           Resnet.w0 1 [("inputs", JInt 3)] Resnet.engine_v1
           "Invalid inputs" HTTP_400);
    try reflexivity; discriminate.
Defined.

Lemma exception_leaves_response_unwritten_witness :
  let s :=
    @GetModelStatus_on_get Resnet.constants Resnet.lenient_utils
      Resnet.models (Resnet.post (JDict [])) "resnet" (PyStr "latest")
      Resnet.w0 in
  let m :=
    @GetModelMetadata_on_get Resnet.constants Resnet.lenient_utils
      Resnet.metadata_utils Resnet.models (Resnet.post (JDict [])) "resnet"
      (PyStr "latest") Resnet.w0 in
  let p :=
    @Predict_on_post Resnet.constants Resnet.lenient_utils Resnet.rest_msg
      Resnet.predict_utils Resnet.models (Resnet.post (JDict [])) "resnet"
      (PyStr "latest") Resnet.w0 in
  (fst s = inl ValueError /\ resp (snd s) = resp Resnet.w0) /\
  (fst m = inl KeyError /\ resp (snd m) = resp Resnet.w0) /\
  (fst p = inl KeyError /\ resp (snd p) = resp Resnet.w0).
Proof.
  destruct (@exception_leaves_response_unwritten Resnet.constants
              Resnet.lenient_utils Resnet.rest_msg Resnet.predict_utils
              Resnet.metadata_utils Resnet.models (Resnet.post (JDict []))
              "resnet" (PyStr "latest") Resnet.w0) as (Hs & Hm & Hp).
  repeat split;
    first [ exact (Hs eq_refl) | exact (Hm eq_refl) | exact (Hp eq_refl)
          | reflexivity ].
Defined.

Lemma returned_answers_witness :
  let req := Resnet.post (JDict [("inputs", JInt 3)]) in
  let s :=
    @GetModelStatus_on_get Resnet.constants Spec.service_utils Resnet.models
      req "resnet" (PyStr "1") Resnet.w0 in
  let m :=
    @GetModelMetadata_on_get Resnet.constants Spec.service_utils
      Resnet.metadata_utils Resnet.models req "resnet" (PyStr "7")
      Resnet.w0 in
  let p :=
    @Predict_on_post Resnet.constants Spec.service_utils Resnet.rest_msg
      Resnet.predict_utils Resnet.models req "resnet" (PyStr "1")
      Resnet.w0 in
  (body (resp (snd s)) <> NoBody /\ status (resp (snd s)) = HTTP_200) /\
  (body (resp (snd m)) <> NoBody /\ status (resp (snd m)) = HTTP_NOT_FOUND) /\
  (body (resp (snd p)) <> NoBody /\ status (resp (snd p)) = HTTP_400).
Proof.
  intros req.
  destruct (@returned_answers Resnet.constants Spec.service_utils
              Resnet.rest_msg Resnet.predict_utils Resnet.metadata_utils
              Resnet.models req "resnet" (PyStr "1") Resnet.w0)
    as (Hs & _ & Hp).
  destruct (@returned_answers Resnet.constants Spec.service_utils
              Resnet.rest_msg Resnet.predict_utils Resnet.metadata_utils
              Resnet.models req "resnet" (PyStr "7") Resnet.w0)
    as (_ & Hm & _).
  repeat split;
    first [ exact (proj1 (Hs eq_refl)) | exact (proj2 (Hs eq_refl))
          | exact (proj1 (Hm eq_refl)) | exact (proj2 (Hm eq_refl))
          | exact (proj1 (Hp eq_refl)) | reflexivity ].
Defined.

Lemma answer_depends_on_resolved_version_witness :
  let req := Resnet.post (JDict [("inputs", JList [JInt 3])]) in
  let metadata :=
    @GetModelMetadata_on_get Resnet.constants Spec.service_utils
      Resnet.metadata_utils Resnet.models req "resnet" in
  let predict :=
    @Predict_on_post Resnet.constants Spec.service_utils Resnet.rest_msg
      Resnet.predict_utils Resnet.models req "resnet" in
  (fst (metadata (PyInt 0) Resnet.w0) = fst (metadata (PyStr "1") Resnet.w0) /\
   resp (snd (metadata (PyInt 0) Resnet.w0))
     = resp (snd (metadata (PyStr "1") Resnet.w0)) /\
   in_use (snd (metadata (PyInt 0) Resnet.w0))
     = in_use (snd (metadata (PyStr "1") Resnet.w0))) /\
  (fst (predict (PyInt 0) Resnet.w0) = fst (predict (PyStr "1") Resnet.w0) /\
   resp (snd (predict (PyInt 0) Resnet.w0))
     = resp (snd (predict (PyStr "1") Resnet.w0)) /\
   in_use (snd (predict (PyInt 0) Resnet.w0))
     = in_use (snd (predict (PyStr "1") Resnet.w0))).
Proof.
  apply (@answer_depends_on_resolved_version Resnet.constants
           Spec.service_utils Resnet.rest_msg Resnet.predict_utils
           Resnet.metadata_utils Resnet.models
           (Resnet.post (JDict [("inputs", JList [JInt 3])])) "resnet"
           (PyInt 0) (PyStr "1") Resnet.w0 1); reflexivity.
Defined.

Lemma Predict_success_witness :
  let k := ("resnet", 1) in
  let '(r, w') :=
    Resnet.predict (Resnet.post (JDict [("inputs", JList [JInt 3])]))
      "resnet" (PyStr "1") in
  r = inr tt /\
  resp w' =
    {| status := HTTP_200;
       body := json_dumps
         (JDict [("outputs",
                  JDict [(Resnet.out_name, JList [JList [JFloat "0.5"]])])])
    |} /\
  (forall k', in_use_count w' k' = in_use_count Resnet.w0 k') /\
  calls w' = calls Resnet.w0 ++
    [Check "resnet" (PyStr "1");
     Getattr k A_input_key_names; Getattr k A_input_key_names;
     Acquire k; Infer k; Release k; Getattr k A_model_keys; Serialize].
Proof.
  apply (@Predict_success Resnet.constants Spec.service_utils Resnet.rest_msg
           Resnet.predict_utils Resnet.models
           (Resnet.post (JDict [("inputs", JList [JInt 3])])) "resnet"
           (PyStr "1") Resnet.w0 1 [("inputs", JList [JInt 3])]
           Resnet.engine_v1 [("input", Array (JList [JInt 3]))]
           [(Resnet.out_name, Array (JList [JList [JFloat "0.5"]]))] 1);
    try reflexivity; discriminate.
Defined.

Lemma GetModelStatus_answers_witness :
  let answer requested_version :=
    resp (snd (Resnet.get_status "resnet" requested_version)) in
  let one record :=
    {| status := HTTP_200;
       body := StatusToJson
         {| model_version_status := [Spec.status_entry record] |} true |} in
  answer (PyStr "2") = one Resnet.record_v2 /\
  answer (PyStr "1") = one Resnet.record_v1 /\
  answer (PyStr Resnet.fullwidth_one) = one Resnet.record_v1 /\
  status (answer (PyStr Resnet.separator_then_one)) = HTTP_NOT_FOUND /\
  status (answer (PyStr "7")) = HTTP_NOT_FOUND /\
  status (answer (PyStr "latest")) = HTTP_NOT_FOUND /\
  answer (PyInt 0) =
    {| status := HTTP_200;
       body := StatusToJson
         {| model_version_status :=
              [Spec.status_entry Resnet.record_v1;
               Spec.status_entry Resnet.record_v2] |} true |} /\
  status (resp (snd (Resnet.get_status "ghost" (PyStr "1"))))
    = HTTP_NOT_FOUND.
Proof.
  pose proof (fun model_name requested_version =>
    @GetModelStatus_answers Resnet.constants Resnet.models
      {| media := None |} model_name requested_version Resnet.w0) as Hanswers.
  intros answer one. subst answer one.
  repeat split;
    match goal with
    | |- context [Resnet.get_status ?model_name ?requested_version] =>
        specialize (Hanswers model_name requested_version)
    end;
    vm_compute in Hanswers; vm_compute;
    destruct Hanswers as (_ & _ & _ & _ & Hanswer); exact Hanswer.
Defined.

Lemma GetModelMetadata_counts_and_exceptions_witness :
  let metadata utils models requested_version :=
    @GetModelMetadata_on_get Resnet.constants utils Resnet.metadata_utils
      models {| media := None |} "resnet" requested_version Resnet.w0 in
  let beyond :=
    metadata Spec.service_utils Resnet.models_beyond_int64
      (PyStr "9223372036854775808") in
  let unloaded :=
    metadata Resnet.lenient_utils Resnet.models (PyStr "1") in
  let loaded := metadata Spec.service_utils Resnet.models (PyStr "1") in
  (fst beyond = inl ValueError /\
   in_use_count (snd beyond) ("resnet", 2 ^ 63)
     = S (in_use_count Resnet.w0 ("resnet", 2 ^ 63))) /\
  (fst unloaded = inl KeyError /\ in_use (snd unloaded) = in_use Resnet.w0) /\
  (fst loaded = inr tt /\
   in_use_count (snd loaded) ("resnet", 1)
     = in_use_count Resnet.w0 ("resnet", 1)).
Proof.
  pose proof (fun utils models requested_version =>
    @GetModelMetadata_counts_and_exceptions Resnet.constants utils
      Resnet.metadata_utils models {| media := None |} "resnet"
      requested_version Resnet.w0) as Hmetadata.
  intros metadata beyond unloaded loaded.
  subst metadata beyond unloaded loaded. split; [|split].
  - specialize (Hmetadata Spec.service_utils Resnet.models_beyond_int64
                  (PyStr "9223372036854775808")).
    vm_compute in Hmetadata. vm_compute.
    destruct Hmetadata as [_ [Hcount _]]. split; [reflexivity|exact Hcount].
  - specialize (Hmetadata Resnet.lenient_utils Resnet.models (PyStr "1")).
    vm_compute in Hmetadata. vm_compute.
    destruct Hmetadata as [_ [Hsame _]]. split; [reflexivity|exact Hsame].
  - specialize (Hmetadata Spec.service_utils Resnet.models (PyStr "1")).
    vm_compute in Hmetadata. vm_compute.
    split; [reflexivity|]. exact (proj2 Hmetadata ("resnet", 1)).
Defined.

Lemma GetModelStatus_raises_exactly_witness :
  let status model_name requested_version :=
    fst (@GetModelStatus_on_get Resnet.constants Resnet.lenient_utils
           Resnet.models {| media := None |} model_name requested_version
           Resnet.w0) in
  status "resnet" (PyStr Resnet.separator_then_one) = inl ValueError /\
  status "resnet" (PyStr "7") = inl KeyError /\
  status "ghost" (PyStr "1") = inl KeyError /\
  (forall e, status "resnet" (PyStr Resnet.fullwidth_one) <> inl e).
Proof.
  pose proof (fun model_name requested_version =>
    @GetModelStatus_raises_exactly Resnet.constants Resnet.lenient_utils
      Resnet.models {| media := None |} model_name requested_version
      Resnet.w0) as Hraises.
  intros status. subst status. cbv beta. split; [|split; [|split]].
  - apply (proj2 (Hraises "resnet" (PyStr Resnet.separator_then_one)
                    ValueError)).
    split; [reflexivity|]. left. reflexivity.
  - apply (proj2 (Hraises "resnet" (PyStr "7") KeyError)).
    split; [reflexivity|]. right. exists 7.
    split; [reflexivity|]. split; [reflexivity|].
    right. exists Resnet.resnet.
    split; [reflexivity|]. split; [discriminate|reflexivity].
  - apply (proj2 (Hraises "ghost" (PyStr "1") KeyError)).
    split; [reflexivity|]. right. exists 1.
    split; [reflexivity|]. split; [reflexivity|]. left. reflexivity.
  - intros e Hr.
    apply (proj1 (Hraises "resnet" (PyStr Resnet.fullwidth_one) e)) in Hr.
    destruct Hr as [_ [Hint|(v & Hint & _ & [Hm|(model & Hm & _ & Hrecord)])]];
      vm_compute in Hint; try discriminate Hint; vm_compute in Hm;
      try discriminate Hm.
    injection Hint as <-. injection Hm as <-.
    vm_compute in Hrecord. discriminate Hrecord.
Defined.
